(** * bazaar_ai: the Trader, Hand and Satchel classes of [bazaar_ai/trader.py]

    A shallow embedding of the three classes of [trader.py] and the
    properties its specification states about them.

    Python values are modelled as follows.
    - [int] is [Z] where a value may be any integer (coin values) and [nat]
      for counters that start at zero and are only incremented.
    - [str] is [string]; [<] on strings is the lexicographic order on code
      points, [String.ltb].
    - [list] is [list]; a [dict] is an association list in insertion order.
    - A method that mutates [self] returns the new object (state passing).
    - A method that may raise returns a [result].

    The file has two parts: the model (definitions only), then the lemmas
    and theorems about it. *)

From Stdlib Require Import List String Ascii ZArith NArith Lia Bool.
From Stdlib Require Import Sorted Permutation DecimalString Decimal.
Import ListNotations.

Local Open Scope string_scope.
Local Open Scope list_scope.

(** * Part I: the model *)

(** ** Exceptions *)

Inductive exn : Set :=
| AttributeError
| TypeError
| ValueError
| IndexError
| KeyError.

Inductive result (A : Type) : Type :=
| Ok (a : A)
| Raise (e : exn).

Arguments Ok {A} a.
Arguments Raise {A} e.

Definition bind {A B : Type} (m : result A) (k : A -> result B) : result B :=
  match m with
  | Ok a => k a
  | Raise e => Raise e
  end.

Notation "x <- m ;; k" := (bind m (fun x => k))
  (at level 61, m at next level, right associativity).

(** The object after a call of a mutating method: a call that raises leaves
    the object as it was (every method below raises before it mutates). *)
Definition after {A : Type} (before : A) (r : result A) : A :=
  match r with
  | Ok a => a
  | Raise _ => before
  end.

(** [str(n)] for a non-negative [int]. *)
Definition str_of_nat (n : nat) : string :=
  NilEmpty.string_of_uint (Nat.to_uint n).

(** ** Builtin sequences *)

(** [a <= b] on strings; [a < b] is [String.ltb a b]. *)
Definition str_le (a b : string) : Prop := String.leb a b = true.

(** [sorted(l, key=...)] and [l.sort(key=...)].  Python's sort is stable and
    compares keys with [<] only.  The stable sorted arrangement of a list is
    unique, so the sort is modelled by the insertion sort that takes the
    elements from left to right and puts each one behind every element
    already placed whose key is not greater (the binary insertion CPython
    itself runs on short lists). *)
Fixpoint insort {A : Type} (key : A -> string) (x : A) (l : list A) : list A :=
  match l with
  | [] => [x]
  | y :: l' =>
      if String.ltb (key x) (key y) then x :: y :: l' else y :: insort key x l'
  end.

Definition sorted {A : Type} (key : A -> string) (l : list A) : list A :=
  fold_left (fun acc x => insort key x acc) l [].

(** The keys never decrease from left to right. *)
Definition SortedBy {A : Type} (key : A -> string) (l : list A) : Prop :=
  StronglySorted str_le (map key l).

(** [l.remove(value)]: drops the first item with [item == value]; [None]
    stands for the [ValueError] raised when there is none. *)
Fixpoint list_remove {A : Type} (eqb : A -> A -> bool) (value : A)
         (l : list A) : option (list A) :=
  match l with
  | [] => None
  | item :: l' =>
      if eqb item value then Some l'
      else option_map (cons item) (list_remove eqb value l')
  end.

(** ** Dictionaries *)

Section Dict.

Context {K V : Type}.
Variable eqb : K -> K -> bool.

(** [d[k]]; [None] stands for [KeyError]. *)
Fixpoint dict_get (d : list (K * V)) (k : K) : option V :=
  match d with
  | [] => None
  | (k', v) :: d' => if eqb k' k then Some v else dict_get d' k
  end.

(** [d[k] = v]: an existing key keeps its place, a new one goes last. *)
Fixpoint dict_set (d : list (K * V)) (k : K) (v : V) : list (K * V) :=
  match d with
  | [] => [(k, v)]
  | (k', v') :: d' =>
      if eqb k' k then (k', v) :: d' else (k', v') :: dict_set d' k v
  end.

(** [d.values()] *)
Definition dict_values (d : list (K * V)) : list V := map snd d.

End Dict.

(** ** [terms.py]: the enumerations *)

Module GoodTypes.

(** Modelled from the spec: [terms.py] is not among the sources.  The code
    reads a member's [name], compares members, names the member [CAMEL] and
    iterates over the enumeration.  An [Enum] member is determined by its
    name, so a member is modelled as the record of its name; which members
    exist besides [CAMEL] is left open. *)
Record t : Set := Member { name : string }.

Definition CAMEL : t := Member "CAMEL".

(** [a == b] on members. *)
Definition eqb (a b : t) : bool := String.eqb (name a) (name b).

Definition eq_dec (a b : t) : {a = b} + {a <> b}.
Proof. decide equality. apply string_dec. Defined.

End GoodTypes.

Module BonusTypes.

(** Modelled from the spec: [terms.py] is not among the sources.  [Satchel]
    names the members [THREE], [FOUR] and [FIVE] and the spec speaks of three
    bonus tiers. *)
Inductive t : Set := THREE | FOUR | FIVE.

Definition name (b : t) : string :=
  match b with
  | THREE => "THREE"
  | FOUR => "FOUR"
  | FIVE => "FIVE"
  end.

Definition eqb (a b : t) : bool :=
  match a, b with
  | THREE, THREE | FOUR, FOUR | FIVE, FIVE => true
  | _, _ => false
  end.

(** [for bonus_type in BonusTypes]: the members in definition order. *)
Definition members : list t := [THREE; FOUR; FIVE].

End BonusTypes.

(** ** Coins *)

Module Coin.

(** Modelled from the spec: the coin classes are not among the sources.  The
    code reads [coin.value] only; a value is a Python [int]. *)
Record t : Set := Build { value : Z }.

End Coin.

Module BonusCoin.

(** Modelled from the spec: the code reads [bonus_coin.value] and
    [bonus_coin.bonus_type]. *)
Record t : Set := Build { value : Z; bonus_type : BonusTypes.t }.

End BonusCoin.

(** ** [class Hand] *)

Module Hand.

Section Model.

(** The class of goods is not among the sources and is a parameter: a good
    has a [good_type], and [good_eqb item value] is the test [item == value]
    that [list.remove] runs (true as well when both are the same object). *)
Variable Good : Type.
Variable good_type : Good -> GoodTypes.t.
Variable good_eqb : Good -> Good -> bool.

(** [self._goods], read through the property [goods]. *)
Record t : Type := Build { goods : list Good }.

(** [lambda good: good.good_type.name] *)
Definition key (good : Good) : string := GoodTypes.name (good_type good).

(** [__init__] *)
Definition init (goods : list Good) : t := Build (sorted key goods).

Definition append (self : t) (good : Good) : t :=
  Build (sorted key (goods self ++ [good])).

Definition remove (self : t) (good : Good) : result t :=
  match list_remove good_eqb good (goods self) with
  | None => Raise ValueError
  | Some l => Ok (Build (sorted key l))
  end.

Definition count_goods (self : t) (include_all : bool) : nat :=
  fold_left
    (fun count good =>
       if include_all
          || negb (GoodTypes.eqb (good_type good) GoodTypes.CAMEL)
       then S count else count)
    (goods self) 0.

(** What an attribute of a [Hand] instance evaluates to: [__init__] stores
    [_goods] only, and the class defines the property [goods] and the
    methods of [methods].  (The names every object inherits are left out;
    the code looks none of them up.) *)
Inductive attr : Type :=
| AttrGoods (gs : list Good)
| AttrMethod (m : string).

Definition methods : list string :=
  ["__init__"; "append"; "remove"; "count_goods";
   "__repr__"; "__eq__"; "__hash__"].

(** [self.<name>]: a name that the instance and its class do not define
    raises [AttributeError]. *)
Definition getattr (self : t) (name : string) : result attr :=
  if String.eqb name "_goods" || String.eqb name "goods"
  then Ok (AttrGoods (goods self))
  else if existsb (String.eqb name) methods then Ok (AttrMethod name)
  else Raise AttributeError.

(** The builtins [__repr__] would run on the two attributes it reads, and
    the members [for good_type in GoodTypes] goes through. *)
Variable str : attr -> string.
Variable getitem : attr -> GoodTypes.t -> result attr.
Variable GoodTypes_members : list GoodTypes.t.

(** [goods_map]: the number of goods of each type in the hand. *)
Definition goods_map (self : t) : list (GoodTypes.t * nat) :=
  fold_left
    (fun m good =>
       let n := match dict_get GoodTypes.eqb m (good_type good) with
                | Some n => n
                | None => 0
                end in
       dict_set GoodTypes.eqb m (good_type good) (n + 1))
    (goods self) [].

(** [__repr__] *)
Definition repr (self : t) : result string :=
  reserve <- getattr self "goods_reserve_count" ;;
  let s := ("" ++ str reserve)%string in
  let goods_map := goods_map self in
  fold_left
    (fun acc good_type =>
       s <- acc ;;
       if negb (GoodTypes.eqb good_type GoodTypes.CAMEL) then
         let n := match dict_get GoodTypes.eqb goods_map good_type with
                  | Some n => n
                  | None => 0
                  end in
         stacks <- getattr self "coin_stacks" ;;
         stack <- getitem stacks good_type ;;
         Ok (s ++ "_" ++ GoodTypes.name good_type ++ ":" ++ str_of_nat n
               ++ ":" ++ str stack)%string
       else Ok s)
    GoodTypes_members (Ok s).

(** [__eq__]: [other] is [Some h] when it is a [Hand] and [None] for any
    other object, for which the method returns [None]. *)
Definition eq (self : t) (other : option t) : result (option bool) :=
  match other with
  | Some other =>
      a <- repr self ;; b <- repr other ;; Ok (Some (String.eqb a b))
  | None => Ok None
  end.

(** [__hash__], over the builtin [hash] of a string. *)
Variable hash_str : string -> Z.

Definition hash (self : t) : result Z :=
  a <- repr self ;; Ok (hash_str a).

(** The canonical content of a hand (spec, section 3): its goods as the
    sequence of their types, in the order the hand keeps them. *)
Definition canonical (self : t) : list GoodTypes.t :=
  map good_type (goods self).

(** The class invariant: the goods are sorted by type name. *)
Definition invariant (self : t) : Prop := SortedBy key (goods self).

(** The spec's capped count: the goods whose type is not the bulk type. *)
Definition non_camel (goods : list Good) : list Good :=
  filter
    (fun good =>
       if GoodTypes.eq_dec (good_type good) GoodTypes.CAMEL
       then false else true)
    goods.

End Model.

Arguments Build {Good} goods.
Arguments goods {Good} _.
Arguments AttrGoods {Good} gs.
Arguments AttrMethod {Good} m.
Arguments init {Good} good_type goods.
Arguments append {Good} good_type self good.
Arguments remove {Good} good_type good_eqb self good.
Arguments count_goods {Good} good_type self include_all.
Arguments getattr {Good} self name.
Arguments goods_map {Good} good_type self.
Arguments repr {Good} good_type str getitem GoodTypes_members self.
Arguments eq {Good} good_type str getitem GoodTypes_members self other.
Arguments hash {Good} good_type str getitem GoodTypes_members hash_str self.
Arguments canonical {Good} good_type self.
Arguments invariant {Good} good_type self.
Arguments key {Good} good_type good.
Arguments non_camel {Good} good_type goods.

End Hand.

(** ** [class Satchel] *)

(** The values [Satchel.__repr__] computes with, and [+] on them: two
    strings are concatenated, two integers added, and a string and an
    integer do not add. *)
Inductive pyval : Set :=
| VInt (z : Z)
| VStr (s : string).

Definition py_add (a b : pyval) : result pyval :=
  match a, b with
  | VInt x, VInt y => Ok (VInt (x + y))
  | VStr x, VStr y => Ok (VStr (x ++ y)%string)
  | _, _ => Raise TypeError
  end.

Module Satchel.

(** [self._coins] and [self._bonus_coins], a dict from bonus type to the
    list of the bonus coins of that type. *)
Record t : Type := Build {
  coins : list Coin.t;
  bonus_coins : list (BonusTypes.t * list BonusCoin.t)
}.

(** [__init__] *)
Definition init : t :=
  Build [] [(BonusTypes.THREE, []); (BonusTypes.FOUR, []); (BonusTypes.FIVE, [])].

(** [self._bonus_coins[bonus_type]] *)
Definition bonus_coins_of (self : t) (bonus_type : BonusTypes.t)
  : result (list BonusCoin.t) :=
  match dict_get BonusTypes.eqb (bonus_coins self) bonus_type with
  | Some l => Ok l
  | None => Raise KeyError
  end.

Definition get_bonus_coin_count (self : t) (bonus_type : BonusTypes.t)
  : result nat :=
  l <- bonus_coins_of self bonus_type ;; Ok (List.length l).

Definition add_coin (self : t) (coin : Coin.t) : t :=
  Build (coins self ++ [coin]) (bonus_coins self).

Definition add_bonus_coin (self : t) (bonus_coin : BonusCoin.t) : result t :=
  l <- bonus_coins_of self (BonusCoin.bonus_type bonus_coin) ;;
  Ok (Build (coins self)
            (dict_set BonusTypes.eqb (bonus_coins self)
                      (BonusCoin.bonus_type bonus_coin) (l ++ [bonus_coin]))).

Definition calculate_points (self : t) (include_bonus_coins : bool) : Z :=
  let points := 0%Z in
  let points :=
    fold_left (fun points coin => (points + Coin.value coin)%Z)
              (coins self) points in
  if include_bonus_coins then
    fold_left
      (fun points bonus_coins_by_type =>
         fold_left
           (fun points bonus_coin => (points + BonusCoin.value bonus_coin)%Z)
           bonus_coins_by_type points)
      (dict_values (bonus_coins self)) points
  else points.

(** [__repr__]: a method called through [repr()] has to return a string. *)
Definition repr (self : t) : result string :=
  s <- py_add (VStr "") (VInt (calculate_points self false)) ;;
  s <- fold_left
         (fun acc bonus_type =>
            s <- acc ;;
            n <- get_bonus_coin_count self bonus_type ;;
            py_add s (VStr ("_" ++ BonusTypes.name bonus_type ++ ":"
                                ++ str_of_nat n)%string))
         BonusTypes.members (Ok s) ;;
  match s with
  | VStr s => Ok s
  | VInt _ => Raise TypeError
  end.

(** [__eq__]: [other] is [Some s] when it is a [Satchel] and [None] for any
    other object, for which the method returns [None]. *)
Definition eq (self : t) (other : option t) : result (option bool) :=
  match other with
  | Some other =>
      a <- repr self ;; b <- repr other ;; Ok (Some (String.eqb a b))
  | None => Ok None
  end.

(** The class invariant: the dict holds the three keys [__init__] gave it. *)
Definition invariant (self : t) : Prop :=
  map fst (bonus_coins self) = BonusTypes.members.

(** Every bonus coin the satchel holds, whatever its type. *)
Definition all_bonus_coins (self : t) : list BonusCoin.t :=
  List.concat (dict_values (bonus_coins self)).

(** The satchel holds no bonus coins: the count of every type is zero. *)
Definition no_bonus_coins (self : t) : Prop :=
  forall bonus_type, get_bonus_coin_count self bonus_type = Ok 0.

(** The sentence of the spec on the two scores, for one satchel. *)
Definition points_claim (self : t) : Prop :=
  (calculate_points self false <= calculate_points self true)%Z
  /\ (calculate_points self false = calculate_points self true
      <-> no_bonus_coins self).

End Satchel.

(** The sum of a list of integers, as the spec's "sum of values". *)
Definition Zsum (l : list Z) : Z := fold_right Z.add 0%Z l.

(** ** [class Trader] *)

Module Trader.

Section Model.

Variable Good : Type.
Variable good_type : Good -> GoodTypes.t.

(** [actions.py] and the market are not among the sources: the four action
    generators are parameters, each a function from the hand and the market
    observation to a list of actions. *)
Variable MarketObservation : Type.
Variable Action : Type.
Variable Take_get_all_actions : Hand.t Good -> MarketObservation -> list Action.
Variable Trade_get_all_actions : Hand.t Good -> MarketObservation -> list Action.
Variable Sell_get_all_actions : Hand.t Good -> MarketObservation -> list Action.
Variable Herd_get_all_actions : Hand.t Good -> MarketObservation -> list Action.

(** [random.Random]: a generator state, built from a seed, with the
    library's [_randbelow(n)], which [choice] draws its index from. *)
Variable Random : Type.
Variable Random_of_seed : Z -> Random.
Variable randbelow : Random -> nat -> nat * Random.

Record t : Type := Build {
  rng : Random;
  name : string;
  hand : Hand.t Good;
  satchel : Satchel.t
}.

(** [__init__] *)
Definition init (seed : Z) (name : string) : t :=
  Build (Random_of_seed seed) name (Hand.init good_type []) Satchel.init.

Definition get_all_actions (self : t) (market_observation : MarketObservation)
  : list Action :=
  let actions := [] in
  let actions := actions ++ Take_get_all_actions (hand self) market_observation in
  let actions := actions ++ Trade_get_all_actions (hand self) market_observation in
  let actions := actions ++ Sell_get_all_actions (hand self) market_observation in
  let actions := actions ++ Herd_get_all_actions (hand self) market_observation in
  actions.

(** [rng.choice(seq)]: [IndexError] on an empty sequence, else the item at
    the index [_randbelow(len(seq))]. *)
Definition choice (r : Random) (seq : list Action) : result (Action * Random) :=
  match seq with
  | [] => Raise IndexError
  | _ :: _ =>
      let (i, r') := randbelow r (List.length seq) in
      match nth_error seq i with
      | Some a => Ok (a, r')
      | None => Raise IndexError
      end
  end.

(** [select_action]: the action chosen and the trader, whose generator has
    advanced. *)
Definition select_action (self : t) (market_observation : MarketObservation)
  : result (Action * t) :=
  let actions := get_all_actions self market_observation in
  p <- choice (rng self) actions ;;
  Ok (fst p, Build (snd p) (name self) (hand self) (satchel self)).

End Model.

Arguments Build {Good Random} rng name hand satchel.
Arguments rng {Good Random} _.
Arguments name {Good Random} _.
Arguments hand {Good Random} _.
Arguments satchel {Good Random} _.
Arguments init {Good} good_type {Random} Random_of_seed seed name.
Arguments get_all_actions {Good MarketObservation Action}
  Take_get_all_actions Trade_get_all_actions Sell_get_all_actions
  Herd_get_all_actions {Random} self market_observation.
Arguments choice {Action Random} randbelow r seq.
Arguments select_action {Good MarketObservation Action}
  Take_get_all_actions Trade_get_all_actions Sell_get_all_actions
  Herd_get_all_actions {Random} randbelow self market_observation.

End Trader.

(** ** Concrete instances of the parameters *)

Module Sample.

(** Goods that carry their type and nothing else, compared by type. *)
Definition Good : Type := GoodTypes.t.
Definition good_type (good : Good) : GoodTypes.t := good.
Definition good_eqb : Good -> Good -> bool := GoodTypes.eqb.

Definition GOLD : Good := GoodTypes.Member "GOLD".
Definition SPICE : Good := GoodTypes.Member "SPICE".
Definition camel : Good := GoodTypes.CAMEL.

(** A hand built from goods given out of order. *)
Definition hand : Hand.t Good := Hand.init good_type [SPICE; camel; GOLD; SPICE].

(** A satchel with two payout coins and a bonus coin. *)
Definition satchel : Satchel.t :=
  Satchel.Build
    [Coin.Build 5; Coin.Build 3]
    [(BonusTypes.THREE, [BonusCoin.Build 2 BonusTypes.THREE]);
     (BonusTypes.FOUR, []); (BonusTypes.FIVE, [])].

(** A satchel whose only coin is a bonus coin worth nothing. *)
Definition zero_bonus_satchel : Satchel.t :=
  Satchel.Build
    []
    [(BonusTypes.THREE, [BonusCoin.Build 0 BonusTypes.THREE]);
     (BonusTypes.FOUR, []); (BonusTypes.FIVE, [])].

(** Actions named by strings, generators that ignore their arguments, and a
    counter as random generator. *)
Definition Action : Type := string.
Definition Take (_ : Hand.t Good) (_ : unit) : list Action := ["take GOLD"].
Definition Trade (_ : Hand.t Good) (_ : unit) : list Action := [].
Definition Sell (_ : Hand.t Good) (_ : unit) : list Action :=
  ["sell SPICE 1"; "sell SPICE 2"].
Definition Herd (_ : Hand.t Good) (_ : unit) : list Action := ["herd"].

Definition randbelow (r n : nat) : nat * nat := (r mod n, S r).

Definition trader : Trader.t Good nat :=
  Trader.Build 7 "Caveman" hand satchel.

End Sample.

(** ** Sequences of calls on a satchel *)

(** A call of one of the two methods that put a coin into a satchel. *)
Inductive satchel_call : Set :=
| AddCoin (coin : Coin.t)
| AddBonusCoin (bonus_coin : BonusCoin.t).

Definition satchel_do (self : Satchel.t) (c : satchel_call) : result Satchel.t :=
  match c with
  | AddCoin coin => Ok (Satchel.add_coin self coin)
  | AddBonusCoin bonus_coin => Satchel.add_bonus_coin self bonus_coin
  end.

(** The calls of a list made one after the other; the first that raises
    ends the run. *)
Fixpoint satchel_run (self : Satchel.t) (calls : list satchel_call)
  : result Satchel.t :=
  match calls with
  | [] => Ok self
  | c :: calls' => s <- satchel_do self c ;; satchel_run s calls'
  end.

(** The coin values a list of calls puts in, and its bonus coins by type. *)
Definition coin_values (calls : list satchel_call) : list Z :=
  flat_map (fun c => match c with
                     | AddCoin coin => [Coin.value coin]
                     | AddBonusCoin _ => []
                     end) calls.

Definition bonus_coins_added (calls : list satchel_call) : list BonusCoin.t :=
  flat_map (fun c => match c with
                     | AddCoin _ => []
                     | AddBonusCoin b => [b]
                     end) calls.

(** ** [simple_trader.py]: [class RuleTrader] *)

(** [l.sort(key=..., reverse=True)] on integer keys: descending, and items
    with equal keys stay in the order they had.  As for [sorted], the
    insertion sort that takes the items from left to right; an item goes in
    front of the first item placed whose key is smaller. *)
Fixpoint insort_rev {A : Type} (key : A -> Z) (x : A) (l : list A) : list A :=
  match l with
  | [] => [x]
  | y :: l' =>
      if (key y <? key x)%Z then x :: y :: l' else y :: insort_rev key x l'
  end.

Definition sort_rev {A : Type} (key : A -> Z) (l : list A) : list A :=
  fold_left (fun acc x => insort_rev key x acc) l [].

Module RuleTrader.

Section Model.

(** The actions are not among the sources: an action has the attributes
    [type], [good_type] and [count] that [select_action] reads. *)
Variable Action : Type.
Variable type : Action -> string.
Variable good_type : Action -> GoodTypes.t.
Variable count : Action -> Z.

(** The module-level [random.choice]: the state of the shared generator
    and the library's [_randbelow]. *)
Variable Random : Type.
Variable randbelow : Random -> nat -> nat * Random.

(** The observation, with the four attributes [select_action] reads;
    [market_goods_coins] is a dict from good type to a list of coin
    values. *)
Variable ActorGoods : Type.

Record Observation : Type := Build {
  market_goods_coins : list (GoodTypes.t * list Z);
  actor_goods : ActorGoods;
  max_player_goods_count : Z;
  actor_non_camel_goods_count : Z
}.

(** [top_coin]: [coins[-1] if coins else 0] with
    [coins = market_coins.get(good, [])]. *)
Definition top_coin (observation : Observation) (good : GoodTypes.t) : Z :=
  let coins :=
    match dict_get GoodTypes.eqb (market_goods_coins observation) good with
    | Some coins => coins
    | None => []
    end in
  match coins with
  | [] => 0%Z
  | _ :: _ => last coins 0%Z
  end.

(** [sell_score] of a SELL action. *)
Definition sell_score (observation : Observation) (act : Action) : Z :=
  let good := good_type act in
  let count := count act in
  let value := top_coin observation good in
  let bonus_weight := if (3 <=? count)%Z then 3%Z else 0%Z in
  (value * count + bonus_weight)%Z.

(** The first loop: the SELL actions with their scores. *)
Definition sell_actions (observation : Observation) (actions : list Action)
  : list (Z * Action) :=
  fold_left
    (fun sell_actions act =>
       if String.eqb (type act) "SELL"
       then sell_actions ++ [(sell_score observation act, act)]
       else sell_actions)
    actions [].

(** The third loop: the BUY actions of goods whose top coin is at least 4,
    with that value. *)
Definition buy_actions (observation : Observation) (actions : list Action)
  : list (Z * Action) :=
  fold_left
    (fun buy_actions act =>
       if String.eqb (type act) "BUY" then
         let good := good_type act in
         let value := top_coin observation good in
         if (4 <=? value)%Z then buy_actions ++ [(value, act)]
         else buy_actions
       else buy_actions)
    actions [].

(** [scored.sort(key=lambda x: x[0], reverse=True); return scored[0][1]] *)
Definition best (scored : list (Z * Action)) : result Action :=
  match sort_rev fst scored with
  | x :: _ => Ok (snd x)
  | [] => Raise IndexError
  end.

(** [select_action(self, actions, observation, simulate_action_fnc)]; the
    method reads neither [self] nor [simulate_action_fnc].  The result is
    the action with the state of the generator after the call. *)
Definition select_action (r : Random) (actions : list Action)
           (observation : Observation) : result (Action * Random) :=
  let max_goods := max_player_goods_count observation in
  let current_goods := actor_non_camel_goods_count observation in
  let sell_actions := sell_actions observation actions in
  match sell_actions with
  | _ :: _ => a <- best sell_actions ;; Ok (a, r)
  | [] =>
      let forced_sells :=
        if (max_goods - 1 <=? current_goods)%Z
        then filter (fun a => String.eqb (type a) "SELL") actions
        else [] in
      match forced_sells with
      | a :: _ => Ok (a, r)
      | [] =>
          let buy_actions := buy_actions observation actions in
          if negb (match buy_actions with [] => true | _ :: _ => false end)
             && (current_goods <? max_goods)%Z
          then a <- best buy_actions ;; Ok (a, r)
          else
            match find (fun act => String.eqb (type act) "PASS") actions with
            | Some act => Ok (act, r)
            | None => Trader.choice randbelow r actions
            end
      end
  end.

End Model.

Arguments Build {ActorGoods} market_goods_coins actor_goods
  max_player_goods_count actor_non_camel_goods_count.
Arguments market_goods_coins {ActorGoods} _.
Arguments actor_goods {ActorGoods} _.
Arguments max_player_goods_count {ActorGoods} _.
Arguments actor_non_camel_goods_count {ActorGoods} _.
Arguments top_coin {ActorGoods} observation good.
Arguments sell_score {Action} good_type count {ActorGoods} observation act.
Arguments sell_actions {Action} type good_type count {ActorGoods}
  observation actions.
Arguments buy_actions {Action} type good_type {ActorGoods} observation actions.
Arguments best {Action} scored.
Arguments select_action {Action} type good_type count {Random} randbelow
  {ActorGoods} r actions observation.

End RuleTrader.

(** A sample of actions and of an observation for [RuleTrader]. *)
Module RuleSample.

Record Action : Set := Act { type : string; good_type : GoodTypes.t; count : Z }.

Definition sell_gold_2 : Action := Act "SELL" Sample.GOLD 2.
Definition sell_spice_3 : Action := Act "SELL" Sample.SPICE 3.
Definition buy_gold : Action := Act "BUY" Sample.GOLD 1.
Definition buy_spice : Action := Act "BUY" Sample.SPICE 1.
Definition pass : Action := Act "PASS" Sample.camel 0.
Definition take_gold : Action := Act "TAKE" Sample.GOLD 1.

Definition observation : RuleTrader.Observation unit :=
  RuleTrader.Build [(Sample.GOLD, [5; 6]%Z); (Sample.SPICE, [1; 2; 3]%Z)]
                   tt 7 2.

End RuleSample.

(** Goods as distinct objects: a good carries its type and the identity of
    the object, and [==] is the comparison the class [object] gives, true
    of an object and itself only. *)
Module Tagged.

Record Good : Set := Obj { good_type : GoodTypes.t; id : nat }.

Definition good_eqb (a b : Good) : bool :=
  GoodTypes.eqb (good_type a) (good_type b) && Nat.eqb (id a) (id b).

Definition gold1 : Good := Obj Sample.GOLD 1.
Definition gold2 : Good := Obj Sample.GOLD 2.

(** [Hand([gold1, gold2])] *)
Definition hand : Hand.t Good := Hand.init good_type [gold1; gold2].

End Tagged.

(** * Part II: lemmas and theorems *)

(** ** The order on sort keys *)

Lemma ascii_compare_trans_lt (a b c : ascii) :
  Ascii.compare a b = Lt -> Ascii.compare b c = Lt -> Ascii.compare a c = Lt.
Proof.
  unfold Ascii.compare. rewrite !N.compare_lt_iff. lia.
Qed.

Lemma str_compare_refl (s : string) : String.compare s s = Eq.
Proof.
  induction s as [|c s IH]; simpl; [reflexivity|].
  unfold Ascii.compare. now rewrite N.compare_refl.
Qed.

Lemma str_compare_trans_lt (s1 : string) :
  forall s2 s3,
    String.compare s1 s2 = Lt -> String.compare s2 s3 = Lt ->
    String.compare s1 s3 = Lt.
Proof.
  induction s1 as [|c1 s1 IH]; intros [|c2 s2] [|c3 s3]; simpl;
    try congruence.
  destruct (Ascii.compare c1 c2) eqn:E12; try discriminate;
    destruct (Ascii.compare c2 c3) eqn:E23; try discriminate; intros H1 H2.
  - apply Ascii.compare_eq_iff in E12, E23. subst.
    unfold Ascii.compare. rewrite N.compare_refl. eauto.
  - apply Ascii.compare_eq_iff in E12. subst. now rewrite E23.
  - apply Ascii.compare_eq_iff in E23. subst. now rewrite E12.
  - now rewrite (ascii_compare_trans_lt _ _ _ E12 E23).
Qed.

Lemma str_le_refl (a : string) : str_le a a.
Proof. unfold str_le, String.leb. now rewrite str_compare_refl. Qed.

Lemma str_le_trans (a b c : string) : str_le a b -> str_le b c -> str_le a c.
Proof.
  unfold str_le, String.leb.
  destruct (String.compare a b) eqn:Eab; try discriminate;
    destruct (String.compare b c) eqn:Ebc; try discriminate; intros _ _.
  - apply String.compare_eq_iff in Eab. subst. now rewrite Ebc.
  - apply String.compare_eq_iff in Eab. subst. now rewrite Ebc.
  - apply String.compare_eq_iff in Ebc. subst. now rewrite Eab.
  - now rewrite (str_compare_trans_lt _ _ _ Eab Ebc).
Qed.

Lemma str_le_antisym (a b : string) : str_le a b -> str_le b a -> a = b.
Proof. apply String.leb_antisym. Qed.

(** [a < b] is false exactly when [b <= a]. *)
Lemma ltb_false_le (a b : string) : String.ltb a b = false <-> str_le b a.
Proof.
  unfold str_le, String.ltb, String.leb. rewrite (String.compare_antisym b a).
  destruct (String.compare a b); simpl; split; congruence.
Qed.

Lemma ltb_true_le (a b : string) : String.ltb a b = true -> str_le a b.
Proof.
  unfold str_le, String.ltb, String.leb.
  destruct (String.compare a b); congruence.
Qed.

(** ** Sorting *)

Section SortFacts.

Context {A : Type}.
Variable key : A -> string.

Lemma SortedBy_nil : SortedBy key [].
Proof. constructor. Qed.

Lemma SortedBy_cons (x : A) (l : list A) :
  SortedBy key (x :: l) <->
  SortedBy key l /\ Forall (fun y => str_le (key x) (key y)) l.
Proof.
  unfold SortedBy. simpl. split.
  - intros H. apply StronglySorted_inv in H. destruct H as [Hs Hf].
    split; [exact Hs|]. now rewrite Forall_map in Hf.
  - intros [Hs Hf]. constructor; [exact Hs|]. now rewrite Forall_map.
Qed.


Lemma insort_perm (x : A) (l : list A) :
  Permutation (insort key x l) (x :: l).
Proof.
  induction l as [|y l IH]; simpl; [reflexivity|].
  destruct (String.ltb (key x) (key y)); [reflexivity|].
  rewrite IH. apply perm_swap.
Qed.

Lemma insort_In (x y : A) (l : list A) :
  In y (insort key x l) <-> y = x \/ In y l.
Proof.
  split; intros H.
  - apply (Permutation_in _ (insort_perm x l)) in H. simpl in H.
    destruct H; auto.
  - apply (Permutation_in _ (Permutation_sym (insort_perm x l))).
    simpl. destruct H; auto.
Qed.

Lemma insort_SortedBy (x : A) (l : list A) :
  SortedBy key l -> SortedBy key (insort key x l).
Proof.
  induction l as [|y l IH]; intros Hs; simpl.
  - apply SortedBy_cons. split; [apply SortedBy_nil | constructor].
  - apply SortedBy_cons in Hs. destruct Hs as [Hs Hy].
    destruct (String.ltb (key x) (key y)) eqn:E.
    + apply ltb_true_le in E.
      apply SortedBy_cons. split.
      * apply SortedBy_cons. now split.
      * constructor; [exact E|].
        eapply Forall_impl; [|exact Hy]. simpl. intros z Hz.
        eapply str_le_trans; eassumption.
    + apply ltb_false_le in E.
      apply SortedBy_cons. split; [now apply IH|].
      apply Forall_forall. intros z Hz. apply insort_In in Hz.
      destruct Hz as [->|Hz]; [exact E|].
      rewrite Forall_forall in Hy. now apply Hy.
Qed.

Lemma fold_insort_SortedBy (l acc : list A) :
  SortedBy key acc ->
  SortedBy key (fold_left (fun acc x => insort key x acc) l acc).
Proof.
  revert acc. induction l as [|x l IH]; intros acc Hacc; simpl; [exact Hacc|].
  apply IH. now apply insort_SortedBy.
Qed.

Lemma sorted_SortedBy (l : list A) : SortedBy key (sorted key l).
Proof. apply fold_insort_SortedBy, SortedBy_nil. Qed.

Lemma fold_insort_perm (l acc : list A) :
  Permutation (fold_left (fun acc x => insort key x acc) l acc) (acc ++ l).
Proof.
  revert acc. induction l as [|x l IH]; intros acc; simpl.
  - now rewrite app_nil_r.
  - rewrite IH, insort_perm. apply Permutation_middle.
Qed.

Lemma sorted_perm (l : list A) : Permutation (sorted key l) l.
Proof. apply (fold_insort_perm l []). Qed.

(** An element that no placed element exceeds goes last. *)
Lemma insort_last (x : A) (l : list A) :
  Forall (fun y => str_le (key y) (key x)) l -> insort key x l = l ++ [x].
Proof.
  induction 1 as [|y l Hy _ IH]; simpl; [reflexivity|].
  apply ltb_false_le in Hy. now rewrite Hy, IH.
Qed.

Lemma SortedBy_app_l (l1 l2 : list A) :
  SortedBy key (l1 ++ l2) -> SortedBy key l1.
Proof.
  induction l1 as [|a l1 IH]; simpl; intros H; [apply SortedBy_nil|].
  apply SortedBy_cons in H. destruct H as [Hs Ha].
  apply SortedBy_cons. split; [now apply IH|].
  apply Forall_app in Ha. tauto.
Qed.

Lemma SortedBy_app_last (l : list A) (x : A) :
  SortedBy key (l ++ [x]) -> Forall (fun y => str_le (key y) (key x)) l.
Proof.
  induction l as [|y l IH]; simpl; intros H; [constructor|].
  apply SortedBy_cons in H. destruct H as [Hs Hy].
  constructor; [|now apply IH].
  apply Forall_app in Hy. destruct Hy as [_ Hy]. now inversion Hy.
Qed.

Lemma fold_insort_fixed (l acc : list A) :
  SortedBy key (acc ++ l) ->
  fold_left (fun acc x => insort key x acc) l acc = acc ++ l.
Proof.
  revert acc. induction l as [|x l IH]; intros acc H; simpl.
  - now rewrite app_nil_r.
  - assert (E : acc ++ x :: l = (acc ++ [x]) ++ l)
      by now rewrite <- app_assoc.
    rewrite E in H |- *.
    pose proof (SortedBy_app_last _ _ (SortedBy_app_l _ _ H)) as Hx.
    rewrite (insort_last x acc Hx). now apply IH.
Qed.

(** Sorting a sorted list changes nothing. *)
Lemma sorted_fixed (l : list A) : SortedBy key l -> sorted key l = l.
Proof. intros H. apply (fold_insort_fixed l []). exact H. Qed.


End SortFacts.

(** Sorting commutes with a map that the key factors through. *)
Lemma insort_map {A B : Type} (f : A -> B) (key : B -> string)
      (x : A) (l : list A) :
  map f (insort (fun a => key (f a)) x l) = insort key (f x) (map f l).
Proof.
  induction l as [|y l IH]; simpl; [reflexivity|].
  destruct (String.ltb (key (f x)) (key (f y))); simpl; [reflexivity|].
  now rewrite IH.
Qed.

Lemma sorted_map {A B : Type} (f : A -> B) (key : B -> string) (l : list A) :
  map f (sorted (fun a => key (f a)) l) = sorted key (map f l).
Proof.
  unfold sorted.
  change (@nil B) with (map f (@nil A)) at 1.
  generalize (@nil A) as acc.
  induction l as [|x l IH]; intros acc; simpl; [reflexivity|].
  rewrite IH. now rewrite insort_map.
Qed.

(** Two sorted arrangements of the same elements are the same list when
    the key tells the elements apart. *)
Lemma SortedBy_perm_unique {A : Type} (key : A -> string) :
  (forall a b, key a = key b -> a = b) ->
  forall l1 l2 : list A,
    SortedBy key l1 -> SortedBy key l2 -> Permutation l1 l2 -> l1 = l2.
Proof.
  intros Hinj. induction l1 as [|a l1 IH]; intros l2 H1 H2 Hp.
  - apply Permutation_nil in Hp. now subst.
  - destruct l2 as [|b l2].
    + apply Permutation_sym, Permutation_nil in Hp. discriminate.
    + apply SortedBy_cons in H1. destruct H1 as [H1 Ha].
      apply SortedBy_cons in H2. destruct H2 as [H2 Hb].
      rewrite Forall_forall in Ha, Hb.
      assert (Eab : a = b).
      { apply Hinj, str_le_antisym.
        - assert (Hin : In b (a :: l1))
            by (apply (Permutation_in _ (Permutation_sym Hp)); now left).
          destruct Hin as [->|Hin]; [apply str_le_refl | now apply Ha].
        - assert (Hin : In a (b :: l2))
            by (apply (Permutation_in _ Hp); now left).
          destruct Hin as [->|Hin]; [apply str_le_refl | now apply Hb]. }
      subst b. f_equal. apply IH; try assumption.
      now apply Permutation_cons_inv in Hp.
Qed.

(** ** Enumeration members *)

Lemma GoodTypes_name_inj (a b : GoodTypes.t) :
  GoodTypes.name a = GoodTypes.name b -> a = b.
Proof. destruct a, b; simpl. now intros ->. Qed.

Lemma GoodTypes_eqb_eq (a b : GoodTypes.t) :
  GoodTypes.eqb a b = true <-> a = b.
Proof.
  unfold GoodTypes.eqb. rewrite String.eqb_eq. split.
  - apply GoodTypes_name_inj.
  - now intros ->.
Qed.

Lemma BonusTypes_eqb_eq (a b : BonusTypes.t) :
  BonusTypes.eqb a b = true <-> a = b.
Proof. destruct a, b; simpl; split; congruence. Qed.

Lemma BonusTypes_eqb_refl (a : BonusTypes.t) : BonusTypes.eqb a a = true.
Proof. now destruct a. Qed.

Lemma BonusTypes_eqb_neq (a b : BonusTypes.t) :
  BonusTypes.eqb a b = false <-> a <> b.
Proof. destruct a, b; simpl; split; congruence. Qed.

(** ** [Hand] *)

Section HandFacts.

Variable Good : Type.
Variable good_type : Good -> GoodTypes.t.
Variable good_eqb : Good -> Good -> bool.

Local Abbreviation key := (Hand.key good_type).

(** A loop that counts the items passing a test counts the filtered list. *)
Lemma count_loop (p : Good -> bool) (l : list Good) (n : nat) :
  fold_left (fun count good => if p good then S count else count) l n
  = n + List.length (filter p l).
Proof.
  revert n. induction l as [|g l IH]; intros n; simpl; [lia|].
  rewrite IH. destruct (p g); simpl; lia.
Qed.

(** C5.  [count_goods(include_all=False)] is the number of goods in the
    hand whose type is not [CAMEL], and [count_goods(include_all=True)] is
    the number of all goods in the hand, camels included. *)
Theorem Hand_count_goods_spec (h : Hand.t Good) :
  Hand.count_goods good_type h false
  = List.length (Hand.non_camel good_type (Hand.goods h))
  /\ Hand.count_goods good_type h true = List.length (Hand.goods h).
Proof.
  unfold Hand.count_goods, Hand.non_camel. rewrite !count_loop. simpl. split.
  - f_equal. apply filter_ext. intros g.
    destruct (GoodTypes.eq_dec (good_type g) GoodTypes.CAMEL) as [E|E].
    + apply GoodTypes_eqb_eq in E. now rewrite E.
    + destruct (GoodTypes.eqb (good_type g) GoodTypes.CAMEL) eqn:B;
        [|reflexivity].
      apply GoodTypes_eqb_eq in B. contradiction.
  - f_equal. clear. induction (Hand.goods h) as [|g l IH]; simpl; congruence.
Qed.

Lemma Hand_init_invariant (gs : list Good) :
  Hand.invariant good_type (Hand.init good_type gs).
Proof. apply sorted_SortedBy. Qed.

Lemma Hand_append_invariant (h : Hand.t Good) (x : Good) :
  Hand.invariant good_type (Hand.append good_type h x).
Proof. apply sorted_SortedBy. Qed.

Lemma Hand_remove_invariant (h h' : Hand.t Good) (x : Good) :
  Hand.remove good_type good_eqb h x = Ok h' -> Hand.invariant good_type h'.
Proof.
  unfold Hand.remove.
  destruct (list_remove good_eqb x (Hand.goods h)); [|discriminate].
  intros [= <-]. apply sorted_SortedBy.
Qed.

(** C9.  The goods list of a hand is sorted by good type name: it is after
    [__init__], and [append] and [remove] keep it so ([remove] also when it
    raises [ValueError], which leaves the hand as it was). *)
Theorem Hand_goods_always_sorted :
  (forall gs, Hand.invariant good_type (Hand.init good_type gs))
  /\ (forall h x,
        Hand.invariant good_type h ->
        Hand.invariant good_type (Hand.append good_type h x))
  /\ (forall h x,
        Hand.invariant good_type h ->
        Hand.invariant good_type
          (after h (Hand.remove good_type good_eqb h x))).
Proof.
  split; [|split].
  - apply Hand_init_invariant.
  - intros h x _. apply Hand_append_invariant.
  - intros h x Hh.
    destruct (Hand.remove good_type good_eqb h x) as [h'|e] eqn:E; simpl.
    + eapply Hand_remove_invariant; eassumption.
    + exact Hh.
Qed.

(** [remove] succeeds exactly when some good of the hand equals the one
    given. *)
Lemma list_remove_some (x : Good) (l : list Good) :
  (exists l', list_remove good_eqb x l = Some l')
  <-> existsb (fun item => good_eqb item x) l = true.
Proof.
  induction l as [|y l IH]; simpl.
  - split; [intros [l' H]; discriminate | discriminate].
  - destruct (good_eqb y x); simpl.
    + split; eauto.
    + rewrite <- IH. split; intros [l' H].
      * destruct (list_remove good_eqb x l); [eauto | discriminate].
      * rewrite H. simpl. eauto.
Qed.

Lemma map_key_types (l : list Good) :
  map key l = map GoodTypes.name (map good_type l).
Proof. now rewrite map_map. Qed.

Section RoundTrip.

(** [==] on goods: an item equals itself, and equal goods have one type. *)
Hypothesis good_eqb_refl : forall x, good_eqb x x = true.
Hypothesis good_eqb_type :
  forall x y, good_eqb x y = true -> good_type x = good_type y.







End RoundTrip.

(** X1.  Hands built by [__init__] from the same goods in any order have
    one canonical content. *)
Lemma Hand_canonical_perm (l1 l2 : list Good) :
  Permutation (map good_type l1) (map good_type l2) ->
  Hand.canonical good_type (Hand.init good_type l1)
  = Hand.canonical good_type (Hand.init good_type l2).
Proof.
  intros Hp. unfold Hand.canonical, Hand.init. simpl.
  unfold Hand.key. rewrite !(sorted_map good_type GoodTypes.name).
  apply (SortedBy_perm_unique GoodTypes.name GoodTypes_name_inj).
  - apply sorted_SortedBy.
  - apply sorted_SortedBy.
  - now rewrite !sorted_perm.
Qed.

Variable str : Hand.attr Good -> string.
Variable getitem : Hand.attr Good -> GoodTypes.t -> result (Hand.attr Good).
Variable GoodTypes_members : list GoodTypes.t.
Variable hash_str : string -> Z.

(** [__repr__] reads [self.goods_reserve_count], which no [Hand] has. *)
Lemma Hand_repr_raises (h : Hand.t Good) :
  Hand.repr good_type str getitem GoodTypes_members h = Raise AttributeError.
Proof. reflexivity. Qed.

(** C1 (the code as it is).  Comparing a hand with any hand raises
    [AttributeError], and so does hashing it: [__eq__] and [__hash__] go
    through [__repr__]. *)
Theorem Hand_eq_raises (h other : Hand.t Good) :
  Hand.eq good_type str getitem GoodTypes_members h (Some other)
  = Raise AttributeError
  /\ Hand.hash good_type str getitem GoodTypes_members hash_str h
     = Raise AttributeError.
Proof.
  unfold Hand.eq, Hand.hash. now rewrite (Hand_repr_raises h).
Qed.

End HandFacts.

(** ** [Satchel] *)

(** The loops of [calculate_points] add up to sums. *)
Lemma sum_loop {A : Type} (f : A -> Z) (l : list A) (a : Z) :
  fold_left (fun points c => (points + f c)%Z) l a
  = (a + Zsum (map f l))%Z.
Proof.
  revert a. induction l as [|c l IH]; intros a; simpl; [lia|].
  rewrite IH. lia.
Qed.

Lemma Zsum_app (l1 l2 : list Z) : Zsum (l1 ++ l2) = (Zsum l1 + Zsum l2)%Z.
Proof. induction l1 as [|z l1 IH]; simpl; lia. Qed.

Lemma bonus_loop (ls : list (list BonusCoin.t)) (a : Z) :
  fold_left
    (fun points by_type =>
       fold_left (fun points b => (points + BonusCoin.value b)%Z)
                 by_type points)
    ls a
  = (a + Zsum (map BonusCoin.value (List.concat ls)))%Z.
Proof.
  revert a. induction ls as [|l ls IH]; intros a; simpl; [lia|].
  rewrite IH, sum_loop, map_app, Zsum_app. lia.
Qed.

(** C4.  [calculate_points(include_bonus_coins)] is the sum of the values of
    the payout coins plus, exactly when the flag is set, the sum of the
    values of the bonus coins of every bonus type. *)
Theorem Satchel_calculate_points_spec (s : Satchel.t) (include_bonus_coins : bool) :
  Satchel.calculate_points s include_bonus_coins
  = (Zsum (map Coin.value (Satchel.coins s))
     + if include_bonus_coins
       then Zsum (map BonusCoin.value (Satchel.all_bonus_coins s))
       else 0)%Z.
Proof.
  unfold Satchel.calculate_points, Satchel.all_bonus_coins.
  destruct include_bonus_coins.
  - rewrite bonus_loop, sum_loop. lia.
  - rewrite sum_loop. lia.
Qed.

Lemma points_with_bonus (s : Satchel.t) :
  Satchel.calculate_points s true
  = (Satchel.calculate_points s false
     + Zsum (map BonusCoin.value (Satchel.all_bonus_coins s)))%Z.
Proof.
  unfold Satchel.calculate_points, Satchel.all_bonus_coins.
  now rewrite bonus_loop.
Qed.

(** The invariant fixes the shape of the dict. *)
Lemma Satchel_invariant_shape (s : Satchel.t) :
  Satchel.invariant s ->
  exists l3 l4 l5,
    Satchel.bonus_coins s
    = [(BonusTypes.THREE, l3); (BonusTypes.FOUR, l4); (BonusTypes.FIVE, l5)].
Proof.
  unfold Satchel.invariant, BonusTypes.members.
  destruct (Satchel.bonus_coins s) as [|[k3 l3] [|[k4 l4] [|[k5 l5] [|? ?]]]];
    simpl; try discriminate.
  intros [= -> -> ->]. now exists l3, l4, l5.
Qed.

Lemma Satchel_init_invariant : Satchel.invariant Satchel.init.
Proof. reflexivity. Qed.

Lemma Satchel_add_coin_invariant (s : Satchel.t) (c : Coin.t) :
  Satchel.invariant s -> Satchel.invariant (Satchel.add_coin s c).
Proof. intros H. exact H. Qed.

Lemma dict_set_keys {V : Type} (d : list (BonusTypes.t * V))
      (k : BonusTypes.t) (v : V) :
  In k (map fst d) ->
  map fst (dict_set BonusTypes.eqb d k v) = map fst d.
Proof.
  induction d as [|[k' v'] d IH]; simpl; [contradiction|].
  destruct (BonusTypes.eqb k' k) eqn:E; simpl; [reflexivity|].
  intros [->|Hin]; [now rewrite BonusTypes_eqb_refl in E|].
  now rewrite IH.
Qed.

Lemma Satchel_add_bonus_coin_invariant (s s' : Satchel.t) (b : BonusCoin.t) :
  Satchel.invariant s ->
  Satchel.add_bonus_coin s b = Ok s' -> Satchel.invariant s'.
Proof.
  unfold Satchel.invariant, Satchel.add_bonus_coin. intros Hs.
  destruct (Satchel.bonus_coins_of s (BonusCoin.bonus_type b)); simpl;
    [|discriminate].
  intros [= <-]. simpl. rewrite dict_set_keys; [exact Hs|].
  rewrite Hs. unfold BonusTypes.members.
  destruct (BonusCoin.bonus_type b); simpl; auto.
Qed.

Lemma Zsum_nonneg (l : list Z) :
  Forall (fun z => 0 <= z)%Z l -> (0 <= Zsum l)%Z.
Proof. induction 1; simpl; lia. Qed.

Lemma Zsum_pos (l : list Z) :
  Forall (fun z => 0 < z)%Z l -> l <> [] -> (0 < Zsum l)%Z.
Proof.
  intros H Hne. destruct H as [|z l Hz Hl]; [contradiction|]. simpl.
  assert (0 <= Zsum l)%Z; [|lia].
  apply Zsum_nonneg. eapply Forall_impl; [|exact Hl]. simpl. lia.
Qed.

(** With the three keys in place, a satchel without bonus coins is one whose
    three lists are empty. *)
Lemma no_bonus_coins_iff (s : Satchel.t) :
  Satchel.invariant s ->
  Satchel.no_bonus_coins s <-> Satchel.all_bonus_coins s = [].
Proof.
  intros Hs. destruct (Satchel_invariant_shape s Hs) as (l3 & l4 & l5 & E).
  unfold Satchel.no_bonus_coins, Satchel.get_bonus_coin_count,
    Satchel.bonus_coins_of, Satchel.all_bonus_coins.
  rewrite E. simpl. split.
  - intros H.
    pose proof (H BonusTypes.THREE) as H3.
    pose proof (H BonusTypes.FOUR) as H4.
    pose proof (H BonusTypes.FIVE) as H5.
    simpl in H3, H4, H5.
    destruct l3, l4, l5; simpl in *; congruence.
  - intros H. apply app_eq_nil in H. destruct H as [-> H].
    apply app_eq_nil in H. destruct H as [-> H].
    apply app_eq_nil in H. destruct H as [-> _].
    now intros [].
Qed.

(** The first score never exceeds the second when no bonus coin has a
    negative value. *)
Lemma points_le_nonneg (s : Satchel.t) :
  Forall (fun b => 0 <= BonusCoin.value b)%Z (Satchel.all_bonus_coins s) ->
  (Satchel.calculate_points s false <= Satchel.calculate_points s true)%Z.
Proof.
  intros H. rewrite points_with_bonus.
  assert (0 <= Zsum (map BonusCoin.value (Satchel.all_bonus_coins s)))%Z;
    [|lia].
  apply Zsum_nonneg. now rewrite Forall_map.
Qed.

(** C3, as the code has it.  For every satchel (with the three keys of
    [__init__]) whose bonus coins all have a positive value,
    [calculate_points(False) <= calculate_points(True)], and the two are
    equal if and only if the satchel holds no bonus coins. *)
Theorem Satchel_points_bonus_positive (s : Satchel.t) :
  Satchel.invariant s ->
  Forall (fun b => 0 < BonusCoin.value b)%Z (Satchel.all_bonus_coins s) ->
  Satchel.points_claim s.
Proof.
  intros Hs Hpos. unfold Satchel.points_claim.
  rewrite (no_bonus_coins_iff s Hs), points_with_bonus.
  assert (Hv : Forall (fun z => 0 < z)%Z
                      (map BonusCoin.value (Satchel.all_bonus_coins s)))
    by now rewrite Forall_map.
  destruct (Satchel.all_bonus_coins s) as [|b l] eqn:E.
  - simpl. split; [lia|]. split; [reflexivity | intros _; lia].
  - assert (0 < Zsum (map BonusCoin.value (b :: l)))%Z
      by (apply Zsum_pos; [exact Hv | discriminate]).
    split; [lia|]. split; [lia | discriminate].
Qed.

(** C3, as the spec has it, fails: a satchel that [__init__] and one
    [add_bonus_coin] build holds a bonus coin of value 0, and its two scores
    are equal. *)
Lemma Satchel_points_claim_fails :
  Satchel.add_bonus_coin Satchel.init (BonusCoin.Build 0 BonusTypes.THREE)
  = Ok Sample.zero_bonus_satchel
  /\ ~ Satchel.points_claim Sample.zero_bonus_satchel.
Proof.
  split; [reflexivity|].
  intros [_ [H _]]. specialize (H eq_refl BonusTypes.THREE). discriminate.
Qed.

(** C10.  [add_coin] leaves the count of every bonus type as it was;
    [add_bonus_coin(b)], on a satchel with the three keys of [__init__],
    succeeds, raises the count of [b]'s type by one, and leaves the counts
    of the other types and [calculate_points(False)] as they were. *)
Theorem Satchel_add_frame (s : Satchel.t) :
  (forall c bonus_type,
      Satchel.get_bonus_coin_count (Satchel.add_coin s c) bonus_type
      = Satchel.get_bonus_coin_count s bonus_type)
  /\ (Satchel.invariant s ->
      forall b, exists s' n,
        Satchel.add_bonus_coin s b = Ok s'
        /\ Satchel.get_bonus_coin_count s (BonusCoin.bonus_type b) = Ok n
        /\ Satchel.get_bonus_coin_count s' (BonusCoin.bonus_type b) = Ok (S n)
        /\ (forall bonus_type,
               bonus_type <> BonusCoin.bonus_type b ->
               Satchel.get_bonus_coin_count s' bonus_type
               = Satchel.get_bonus_coin_count s bonus_type)
        /\ Satchel.calculate_points s' false
           = Satchel.calculate_points s false).
Proof.
  split; [reflexivity|].
  intros Hs b. destruct (Satchel_invariant_shape s Hs) as (l3 & l4 & l5 & E).
  unfold Satchel.add_bonus_coin, Satchel.get_bonus_coin_count,
    Satchel.bonus_coins_of, Satchel.calculate_points.
  rewrite E.
  destruct (BonusCoin.bonus_type b) eqn:Eb; simpl;
    eexists; eexists; (split; [reflexivity|]); (split; [reflexivity|]);
    simpl; rewrite ?length_app; simpl; (split; [f_equal; lia|]);
    (split; [|reflexivity]); intros []; simpl; congruence.
Qed.

(** [__repr__] adds an [int] to a [str]. *)
Lemma Satchel_repr_raises (s : Satchel.t) :
  Satchel.repr s = Raise TypeError.
Proof. reflexivity. Qed.

(** C2 (the code as it is).  Comparing a satchel with any satchel raises
    [TypeError]: [__eq__] goes through [__repr__]. *)
Theorem Satchel_eq_raises (s other : Satchel.t) :
  Satchel.eq s (Some other) = Raise TypeError.
Proof. unfold Satchel.eq. now rewrite (Satchel_repr_raises s). Qed.

(** ** [Trader] *)

Section TraderFacts.

Variable Good : Type.
Variable MarketObservation : Type.
Variable Action : Type.
Variable Take Trade Sell Herd : Hand.t Good -> MarketObservation -> list Action.
Variable Random : Type.
Variable randbelow : Random -> nat -> nat * Random.

Local Abbreviation get_all_actions :=
  (Trader.get_all_actions Take Trade Sell Herd (Random := Random)).
Local Abbreviation select_action :=
  (Trader.select_action Take Trade Sell Herd randbelow).

(** C7.  [get_all_actions] returns the lists of the Take, Trade, Sell and
    Herd generators on the trader's hand and the market observation, joined
    in that order: an action is returned exactly when one of the four
    generators gives it, and as often as they give it. *)
Theorem Trader_get_all_actions_spec
        (self : Trader.t Good Random) (mo : MarketObservation) :
  get_all_actions self mo
  = Take (Trader.hand self) mo ++ Trade (Trader.hand self) mo
    ++ Sell (Trader.hand self) mo ++ Herd (Trader.hand self) mo
  /\ (forall a,
        In a (get_all_actions self mo)
        <-> In a (Take (Trader.hand self) mo)
            \/ In a (Trade (Trader.hand self) mo)
            \/ In a (Sell (Trader.hand self) mo)
            \/ In a (Herd (Trader.hand self) mo))
  /\ List.length (get_all_actions self mo)
     = List.length (Take (Trader.hand self) mo)
       + List.length (Trade (Trader.hand self) mo)
       + List.length (Sell (Trader.hand self) mo)
       + List.length (Herd (Trader.hand self) mo).
Proof.
  unfold Trader.get_all_actions. cbv zeta. rewrite app_nil_l.
  split; [|split].
  - now rewrite <- !app_assoc.
  - intros a. rewrite !in_app_iff. tauto.
  - rewrite !length_app. lia.
Qed.

(** [choice] on a non-empty list gives one of its items. *)
Lemma choice_In (r : Random) (seq : list Action) :
  (forall r n, 0 < n -> fst (randbelow r n) < n) ->
  seq <> [] ->
  exists a r', Trader.choice randbelow r seq = Ok (a, r') /\ In a seq.
Proof.
  intros Hlt Hne. unfold Trader.choice.
  destruct seq as [|a0 seq]; [contradiction|].
  pose proof (Hlt r (List.length (a0 :: seq))) as Hi.
  destruct (randbelow r (List.length (a0 :: seq))) as [i r'].
  simpl fst in Hi.
  destruct (nth_error (a0 :: seq) i) as [a|] eqn:E.
  - exists a, r'. split; [reflexivity|]. eapply nth_error_In; eassumption.
  - apply nth_error_None in E. simpl in Hi, E. lia.
Qed.

(** C8.  Whenever [get_all_actions] gives a non-empty list, the default
    [select_action] returns one of its items (given that the library's
    [_randbelow(n)] answers below [n]); the trader is unchanged but for the
    state of its generator. *)
Theorem Trader_select_action_legal
        (self : Trader.t Good Random) (mo : MarketObservation) :
  (forall r n, 0 < n -> fst (randbelow r n) < n) ->
  get_all_actions self mo <> [] ->
  exists a self',
    select_action self mo = Ok (a, self')
    /\ In a (get_all_actions self mo)
    /\ Trader.hand self' = Trader.hand self
    /\ Trader.satchel self' = Trader.satchel self
    /\ Trader.name self' = Trader.name self.
Proof.
  intros Hlt Hne. unfold Trader.select_action. cbv zeta.
  destruct (choice_In (Trader.rng self) _ Hlt Hne) as (a & r' & -> & Hin).
  simpl. eexists; eexists. split; [reflexivity|]. simpl. auto.
Qed.

(** X2.  On an empty list of actions the default [select_action] raises
    [IndexError]. *)
Lemma Trader_select_action_empty
      (self : Trader.t Good Random) (mo : MarketObservation) :
  get_all_actions self mo = [] ->
  select_action self mo = Raise IndexError.
Proof.
  intros E. unfold Trader.select_action. cbv zeta. now rewrite E.
Qed.

End TraderFacts.

(** ** The theorems at the sample instances *)

Lemma Sample_good_eqb_refl (x : Sample.Good) : Sample.good_eqb x x = true.
Proof. now apply GoodTypes_eqb_eq. Qed.

Lemma Sample_good_eqb_type (x y : Sample.Good) :
  Sample.good_eqb x y = true -> Sample.good_type x = Sample.good_type y.
Proof. apply GoodTypes_eqb_eq. Qed.

Lemma Sample_randbelow_lt (r n : nat) :
  0 < n -> fst (Sample.randbelow r n) < n.
Proof. intros H. simpl. apply Nat.mod_upper_bound. lia. Qed.

(** C9 at the sample hand: it is sorted, and stays so when a camel is
    appended and when a good it does not hold is removed. *)
Lemma Hand_goods_always_sorted_sample :
  Hand.invariant Sample.good_type Sample.hand
  /\ Hand.invariant Sample.good_type
       (Hand.append Sample.good_type Sample.hand Sample.camel)
  /\ Hand.invariant Sample.good_type
       (after Sample.hand
          (Hand.remove Sample.good_type Sample.good_eqb Sample.hand
             (GoodTypes.Member "SILK"))).
Proof.
  destruct (Hand_goods_always_sorted Sample.Good Sample.good_type
              Sample.good_eqb) as (Hinit & Happ & Hrem).
  pose proof (Hinit [Sample.SPICE; Sample.camel; Sample.GOLD; Sample.SPICE])
    as H.
  split; [exact H|]. split; [apply Happ, H | apply Hrem, H].
Defined.




(** C3 at the sample satchel, whose one bonus coin is worth 2. *)
Lemma Satchel_points_bonus_positive_sample :
  Satchel.points_claim Sample.satchel.
Proof.
  apply Satchel_points_bonus_positive.
  - reflexivity.
  - repeat constructor.
Defined.

(** C10 at the sample satchel and a bonus coin of type FOUR. *)
Lemma Satchel_add_frame_sample :
  exists s' n,
    Satchel.add_bonus_coin Sample.satchel (BonusCoin.Build 4 BonusTypes.FOUR)
    = Ok s'
    /\ Satchel.get_bonus_coin_count Sample.satchel BonusTypes.FOUR = Ok n
    /\ Satchel.get_bonus_coin_count s' BonusTypes.FOUR = Ok (S n)
    /\ (forall bonus_type,
           bonus_type <> BonusTypes.FOUR ->
           Satchel.get_bonus_coin_count s' bonus_type
           = Satchel.get_bonus_coin_count Sample.satchel bonus_type)
    /\ Satchel.calculate_points s' false
       = Satchel.calculate_points Sample.satchel false.
Proof.
  destruct (Satchel_add_frame Sample.satchel) as [_ H].
  exact (H eq_refl (BonusCoin.Build 4 BonusTypes.FOUR)).
Defined.

(** C8 at the sample trader. *)
Lemma Trader_select_action_legal_sample :
  exists a self',
    Trader.select_action Sample.Take Sample.Trade Sample.Sell Sample.Herd
      Sample.randbelow Sample.trader tt
    = Ok (a, self')
    /\ In a (Trader.get_all_actions Sample.Take Sample.Trade Sample.Sell
               Sample.Herd Sample.trader tt)
    /\ Trader.hand self' = Trader.hand Sample.trader
    /\ Trader.satchel self' = Trader.satchel Sample.trader
    /\ Trader.name self' = Trader.name Sample.trader.
Proof.
  apply (Trader_select_action_legal Sample.Good unit Sample.Action
           Sample.Take Sample.Trade Sample.Sell Sample.Herd nat
           Sample.randbelow Sample.trader tt Sample_randbelow_lt).
  discriminate.
Defined.

(** ** Further properties of [Hand] *)

(** X3.  [__init__] keeps every good it is given, as often as it is given:
    the goods of the new hand are a rearrangement of the argument. *)
Lemma Hand_init_perm (Good : Type) (good_type : Good -> GoodTypes.t)
      (gs : list Good) :
  Permutation (Hand.goods (Hand.init good_type gs)) gs.
Proof. apply sorted_perm. Qed.

(** X1 at two orders of a SPICE and a GOLD. *)
Lemma Hand_canonical_perm_sample :
  Hand.canonical Sample.good_type
    (Hand.init Sample.good_type [Sample.SPICE; Sample.GOLD])
  = Hand.canonical Sample.good_type
      (Hand.init Sample.good_type [Sample.GOLD; Sample.SPICE]).
Proof.
  apply (Hand_canonical_perm Sample.Good Sample.good_type).
  simpl. apply perm_swap.
Defined.

(** X2 at the sample trader when no generator gives an action. *)
Lemma Trader_select_action_empty_sample :
  Trader.select_action Sample.Trade Sample.Trade Sample.Trade Sample.Trade
    Sample.randbelow Sample.trader tt
  = Raise IndexError.
Proof.
  apply (Trader_select_action_empty Sample.Good unit Sample.Action
           Sample.Trade Sample.Trade Sample.Trade Sample.Trade nat
           Sample.randbelow Sample.trader tt).
  reflexivity.
Defined.

(** ** [Hand]: what [append] and [remove] do to the goods *)

Section HandCalls.

Variable Good : Type.
Variable good_type : Good -> GoodTypes.t.
Variable good_eqb : Good -> Good -> bool.

Local Abbreviation key := (Hand.key good_type).

Lemma filter_length_perm (p : Good -> bool) (l l' : list Good) :
  Permutation l l' ->
  List.length (filter p l) = List.length (filter p l').
Proof.
  induction 1 as [|x l l' _ IH|x y l|l l' l'' _ IH1 _ IH2]; simpl.
  - reflexivity.
  - destruct (p x); simpl; congruence.
  - destruct (p x), (p y); reflexivity.
  - congruence.
Qed.

(** Both counts depend on the goods held, not on their order. *)
Lemma count_goods_perm (h h' : Hand.t Good) (include_all : bool) :
  Permutation (Hand.goods h) (Hand.goods h') ->
  Hand.count_goods good_type h include_all
  = Hand.count_goods good_type h' include_all.
Proof.
  intros Hp. unfold Hand.count_goods. rewrite !count_loop.
  f_equal. now apply filter_length_perm.
Qed.

(** X4.  [append(good)] adds the good and nothing else: the goods after the
    call are those before it and [good], [count_goods(include_all=True)]
    grows by one, and [count_goods()] grows by one unless the good is a
    camel, which leaves it as it was. *)
Theorem Hand_append_adds_one (h : Hand.t Good) (x : Good) :
  Permutation (Hand.goods (Hand.append good_type h x)) (x :: Hand.goods h)
  /\ Hand.count_goods good_type (Hand.append good_type h x) true
     = S (Hand.count_goods good_type h true)
  /\ Hand.count_goods good_type (Hand.append good_type h x) false
     = Hand.count_goods good_type h false
       + (if GoodTypes.eq_dec (good_type x) GoodTypes.CAMEL then 0 else 1).
Proof.
  assert (Hp : Permutation (Hand.goods (Hand.append good_type h x))
                           (x :: Hand.goods h)).
  { unfold Hand.append. simpl. rewrite sorted_perm.
    apply Permutation_sym, Permutation_cons_append. }
  split; [exact Hp|].
  rewrite !(count_goods_perm _ (Hand.Build (x :: Hand.goods h)) _ Hp).
  unfold Hand.count_goods. rewrite !count_loop. simpl. split; [reflexivity|].
  destruct (GoodTypes.eq_dec (good_type x) GoodTypes.CAMEL) as [E|E].
  - apply GoodTypes_eqb_eq in E. rewrite E. simpl. lia.
  - destruct (GoodTypes.eqb (good_type x) GoodTypes.CAMEL) eqn:B.
    + apply GoodTypes_eqb_eq in B. contradiction.
    + simpl. lia.
Qed.

(** What [list.remove] takes out: the first item equal to the value. *)
Lemma list_remove_split (x : Good) (l l' : list Good) :
  list_remove good_eqb x l = Some l' ->
  exists l1 item l2,
    l = l1 ++ item :: l2 /\ l' = l1 ++ l2
    /\ good_eqb item x = true
    /\ Forall (fun g => good_eqb g x = false) l1.
Proof.
  revert l'. induction l as [|y l IH]; intros l'; simpl; [discriminate|].
  destruct (good_eqb y x) eqn:E.
  - intros [= <-]. exists [], y, l. auto.
  - destruct (list_remove good_eqb x l) as [l0|]; [|discriminate].
    intros [= <-]. destruct (IH l0 eq_refl) as (l1 & item & l2 & -> & -> & Hi & Hf).
    exists (y :: l1), item, l2. repeat split; auto.
Qed.

Lemma SortedBy_remove_middle (l1 l2 : list Good) (item : Good) :
  SortedBy key (l1 ++ item :: l2) -> SortedBy key (l1 ++ l2).
Proof.
  induction l1 as [|a l1 IH]; simpl; intros H.
  - apply SortedBy_cons in H. tauto.
  - apply SortedBy_cons in H. destruct H as [Hs Ha].
    apply SortedBy_cons. split; [now apply IH|].
    apply Forall_app in Ha. destruct Ha as [Ha1 Ha2].
    apply Forall_app. split; [exact Ha1 | now inversion Ha2].
Qed.

Lemma remove_sorted_split (h h' : Hand.t Good) (x : Good) :
  Hand.invariant good_type h ->
  Hand.remove good_type good_eqb h x = Ok h' ->
  exists l1 item l2,
    Hand.goods h = l1 ++ item :: l2
    /\ Hand.goods h' = l1 ++ l2
    /\ good_eqb item x = true
    /\ Forall (fun g => good_eqb g x = false) l1.
Proof.
  intros Hh. unfold Hand.remove.
  destruct (list_remove good_eqb x (Hand.goods h)) as [l'|] eqn:E;
    [|discriminate].
  intros [= <-].
  destruct (list_remove_split x _ _ E) as (l1 & item & l2 & E1 & -> & Hi & Hf).
  exists l1, item, l2. simpl.
  unfold Hand.invariant in Hh. rewrite E1 in Hh.
  rewrite (sorted_fixed _ _ (SortedBy_remove_middle _ _ _ Hh)).
  repeat split; auto.
Qed.

(** X5.  A [remove(good)] that returns takes exactly one good out of a
    sorted hand, the first one equal to [good], and leaves the others in
    their places; [count_goods(include_all=True)] falls by one. *)
Theorem Hand_remove_takes_first (h h' : Hand.t Good) (x : Good) :
  Hand.invariant good_type h ->
  Hand.remove good_type good_eqb h x = Ok h' ->
  exists l1 item l2,
    Hand.goods h = l1 ++ item :: l2
    /\ Hand.goods h' = l1 ++ l2
    /\ good_eqb item x = true
    /\ Forall (fun g => good_eqb g x = false) l1
    /\ Hand.count_goods good_type h true
       = S (Hand.count_goods good_type h' true).
Proof.
  intros Hh Hr.
  destruct (remove_sorted_split h h' x Hh Hr)
    as (l1 & item & l2 & E & E' & Hi & Hf).
  exists l1, item, l2. repeat split; auto.
  unfold Hand.count_goods. rewrite !count_loop, E, E'.
  rewrite !filter_app, !length_app. simpl. lia.
Qed.

(** X6.  [remove(good)] raises exactly when no good of the hand equals
    [good], and then it raises [ValueError]. *)
Theorem Hand_remove_raises_iff (h : Hand.t Good) (x : Good) :
  (Hand.remove good_type good_eqb h x = Raise ValueError
   <-> Forall (fun g => good_eqb g x = false) (Hand.goods h))
  /\ (forall e, Hand.remove good_type good_eqb h x = Raise e -> e = ValueError).
Proof.
  unfold Hand.remove. split.
  - split.
    + destruct (list_remove good_eqb x (Hand.goods h)) as [l'|] eqn:E;
        [discriminate|]. intros _.
      induction (Hand.goods h) as [|y l IH]; [constructor|].
      simpl in E. destruct (good_eqb y x) eqn:Ey; [discriminate|].
      constructor; [exact Ey|]. apply IH.
      destruct (list_remove good_eqb x l); [discriminate | reflexivity].
    + intros Hf.
      assert (E : list_remove good_eqb x (Hand.goods h) = None).
      { induction Hf as [|y l Hy _ IH]; simpl; [reflexivity|].
        now rewrite Hy, IH. }
      now rewrite E.
  - intros e. destruct (list_remove good_eqb x (Hand.goods h));
      [discriminate | congruence].
Qed.

(** X7.  [count_goods(include_all=True)] is [count_goods()] plus the number
    of camels in the hand; so [count_goods()] never exceeds it. *)
Theorem Hand_count_goods_camels (h : Hand.t Good) :
  Hand.count_goods good_type h true
  = Hand.count_goods good_type h false
    + List.length
        (filter (fun g => GoodTypes.eqb (good_type g) GoodTypes.CAMEL)
                (Hand.goods h))
  /\ Hand.count_goods good_type h false <= Hand.count_goods good_type h true.
Proof.
  assert (E : Hand.count_goods good_type h true
              = Hand.count_goods good_type h false
                + List.length
                    (filter (fun g => GoodTypes.eqb (good_type g) GoodTypes.CAMEL)
                            (Hand.goods h))).
  { unfold Hand.count_goods. rewrite !count_loop. simpl.
    induction (Hand.goods h) as [|g l IH]; simpl; [reflexivity|].
    destruct (GoodTypes.eqb (good_type g) GoodTypes.CAMEL); simpl; lia. }
  split; [exact E | lia].
Qed.

Lemma canonical_append (h : Hand.t Good) (x : Good) :
  Hand.canonical good_type (Hand.append good_type h x)
  = sorted GoodTypes.name (map good_type (Hand.goods h ++ [x])).
Proof.
  unfold Hand.canonical, Hand.append, Hand.key. simpl.
  apply (sorted_map good_type GoodTypes.name).
Qed.

Lemma sorted_same_perm (l l' : list GoodTypes.t) :
  Permutation l l' -> sorted GoodTypes.name l = sorted GoodTypes.name l'.
Proof.
  intros Hp. apply (SortedBy_perm_unique GoodTypes.name GoodTypes_name_inj).
  - apply sorted_SortedBy.
  - apply sorted_SortedBy.
  - now rewrite !sorted_perm.
Qed.

(** X8.  The order of two [append] calls does not show in the canonical
    content of the hand. *)
Theorem Hand_append_order (h : Hand.t Good) (x y : Good) :
  Hand.canonical good_type
    (Hand.append good_type (Hand.append good_type h x) y)
  = Hand.canonical good_type
      (Hand.append good_type (Hand.append good_type h y) x).
Proof.
  rewrite !canonical_append. apply sorted_same_perm.
  unfold Hand.append. simpl. rewrite !map_app, !sorted_perm, !map_app.
  simpl. rewrite <- !app_assoc. apply Permutation_app_head. simpl.
  apply perm_swap.
Qed.

(** X9.  [remove(good)] followed by [append(good)] restores the canonical
    content of a sorted hand, when [==] on goods holds between goods of one
    type only. *)
Theorem Hand_remove_append_round_trip (h h' : Hand.t Good) (x : Good) :
  (forall a b, good_eqb a b = true -> good_type a = good_type b) ->
  Hand.invariant good_type h ->
  Hand.remove good_type good_eqb h x = Ok h' ->
  Hand.canonical good_type (Hand.append good_type h' x)
  = Hand.canonical good_type h.
Proof.
  intros Ht Hh Hr.
  destruct (remove_sorted_split h h' x Hh Hr)
    as (l1 & item & l2 & E & E' & Hi & _).
  rewrite canonical_append, E'. unfold Hand.canonical. rewrite E.
  transitivity (sorted GoodTypes.name (map good_type (l1 ++ item :: l2))).
  - apply sorted_same_perm. rewrite !map_app. simpl.
    rewrite (Ht _ _ Hi), <- app_assoc.
    apply Permutation_app_head, Permutation_sym, Permutation_cons_append.
  - apply sorted_fixed. unfold Hand.invariant in Hh. rewrite E in Hh.
    unfold SortedBy in *. now rewrite map_key_types in Hh.
Qed.

End HandCalls.

(** ** [Satchel]: what the two add methods do to the scores *)

(** X10.  [add_coin(coin)] raises both scores by the value of the coin. *)
Theorem Satchel_add_coin_points
        (s : Satchel.t) (coin : Coin.t) (include_bonus_coins : bool) :
  Satchel.calculate_points (Satchel.add_coin s coin) include_bonus_coins
  = (Satchel.calculate_points s include_bonus_coins + Coin.value coin)%Z.
Proof.
  unfold Satchel.calculate_points, Satchel.add_coin. simpl.
  destruct include_bonus_coins.
  - rewrite !bonus_loop, !sum_loop, map_app, Zsum_app. simpl. lia.
  - rewrite !sum_loop, map_app, Zsum_app. simpl. lia.
Qed.

Lemma add_coin_step (s : Satchel.t) (coin : Coin.t) (flag : bool) :
  Satchel.calculate_points (Satchel.add_coin s coin) flag
  = (Satchel.calculate_points s flag + Coin.value coin)%Z.
Proof.
  destruct flag.
  - rewrite !points_with_bonus. unfold Satchel.calculate_points.
    simpl. rewrite !sum_loop, map_app, Zsum_app. simpl.
    unfold Satchel.all_bonus_coins. simpl. lia.
  - unfold Satchel.calculate_points. simpl.
    rewrite !sum_loop, map_app, Zsum_app. simpl. lia.
Qed.

(** One [add_bonus_coin] on a satchel with the three keys. *)
Lemma add_bonus_coin_step (s : Satchel.t) (b : BonusCoin.t) :
  Satchel.invariant s ->
  exists s',
    Satchel.add_bonus_coin s b = Ok s'
    /\ Satchel.invariant s'
    /\ Satchel.calculate_points s' false = Satchel.calculate_points s false
    /\ Satchel.calculate_points s' true
       = (Satchel.calculate_points s true + BonusCoin.value b)%Z
    /\ forall bonus_type, exists n,
        Satchel.get_bonus_coin_count s bonus_type = Ok n
        /\ Satchel.get_bonus_coin_count s' bonus_type
           = Ok (n + if BonusTypes.eqb (BonusCoin.bonus_type b) bonus_type
                     then 1 else 0).
Proof.
  intros Hs. destruct (Satchel_invariant_shape s Hs) as (l3 & l4 & l5 & E).
  destruct s as [cs bs]. simpl in E. subst bs. clear Hs.
  destruct b as [v bt].
  destruct bt;
    (eexists; split; [reflexivity|]); (split; [reflexivity|]);
    (split; [reflexivity|]); (split;
    [ rewrite !points_with_bonus;
      unfold Satchel.all_bonus_coins, dict_values, Satchel.calculate_points;
      cbn [map snd List.concat Satchel.bonus_coins Satchel.coins
           BonusCoin.bonus_type dict_set BonusTypes.eqb];
      rewrite ?map_app, ?Zsum_app; cbn [map Zsum fold_right BonusCoin.value];
      rewrite ?map_app, ?Zsum_app; cbn [map Zsum fold_right BonusCoin.value];
      lia
    | intros []; cbn; eexists; (split; [reflexivity|]);
      rewrite ?length_app; cbn; f_equal; lia ]).
Qed.

(** X11.  On a satchel with the three keys of [__init__],
    [add_bonus_coin(b)] returns, keeps the three keys, and raises
    [calculate_points(include_bonus_coins=True)] by the value of [b]. *)
Theorem Satchel_add_bonus_coin_points (s : Satchel.t) (b : BonusCoin.t) :
  Satchel.invariant s ->
  exists s',
    Satchel.add_bonus_coin s b = Ok s'
    /\ Satchel.invariant s'
    /\ Satchel.calculate_points s' true
       = (Satchel.calculate_points s true + BonusCoin.value b)%Z.
Proof.
  intros Hs.
  destruct (add_bonus_coin_step s b Hs) as (s' & Hr & Hi & _ & Ht & _).
  exists s'. auto.
Qed.

Lemma satchel_run_from (calls : list satchel_call) :
  forall s,
    Satchel.invariant s ->
    exists s',
      satchel_run s calls = Ok s'
      /\ Satchel.invariant s'
      /\ Satchel.calculate_points s' false
         = (Satchel.calculate_points s false + Zsum (coin_values calls))%Z
      /\ Satchel.calculate_points s' true
         = (Satchel.calculate_points s true + Zsum (coin_values calls)
            + Zsum (map BonusCoin.value (bonus_coins_added calls)))%Z
      /\ forall bonus_type, exists n,
          Satchel.get_bonus_coin_count s bonus_type = Ok n
          /\ Satchel.get_bonus_coin_count s' bonus_type
             = Ok (n + List.length
                         (filter (fun b => BonusTypes.eqb
                                             (BonusCoin.bonus_type b) bonus_type)
                                 (bonus_coins_added calls))).
Proof.
  induction calls as [|c calls IH]; intros s Hs.
  - exists s. split; [reflexivity|]. split; [exact Hs|].
    split; [simpl; lia|]. split; [simpl; lia|].
    intros bt. destruct (Satchel_invariant_shape s Hs) as (l3 & l4 & l5 & E).
    unfold Satchel.get_bonus_coin_count, Satchel.bonus_coins_of. rewrite E.
    destruct bt; simpl; eexists; (split; [reflexivity|]); f_equal; lia.
  - destruct c as [coin|b].
    + destruct (IH (Satchel.add_coin s coin)
                   (Satchel_add_coin_invariant s coin Hs))
        as (s' & Hr & Hi & Hf & Ht & Hc).
      rewrite add_coin_step in Hf, Ht.
      exists s'. split; [exact Hr|]. split; [exact Hi|].
      split; [rewrite Hf; simpl; lia|].
      split; [rewrite Ht; simpl; lia | exact Hc].
    + destruct (add_bonus_coin_step s b Hs)
        as (s1 & Hr1 & Hi1 & Hf1 & Ht1 & Hc1).
      destruct (IH s1 Hi1) as (s' & Hr & Hi & Hf & Ht & Hc).
      exists s'. split; [simpl; rewrite Hr1; exact Hr|].
      split; [exact Hi|].
      split; [rewrite Hf, Hf1; simpl; lia|].
      split; [rewrite Ht, Ht1; simpl; lia|].
      intros bt. destruct (Hc1 bt) as (n & Hn & Hn1).
      destruct (Hc bt) as (n1 & Hn1' & Hn').
      rewrite Hn1 in Hn1'. injection Hn1' as <-.
      exists n. split; [exact Hn|]. rewrite Hn'. f_equal. simpl.
      destruct (BonusTypes.eqb (BonusCoin.bonus_type b) bt); simpl; lia.
Qed.

(** X12.  Whatever calls of [add_coin] and [add_bonus_coin] are made on a
    new satchel, none raises, and the satchel they build has the payout
    coins' values as [calculate_points()], these plus the bonus coins'
    values as [calculate_points(include_bonus_coins=True)], and for every
    bonus type the number of bonus coins of that type added as count. *)
Theorem Satchel_built_by_calls (calls : list satchel_call) :
  exists s,
    satchel_run Satchel.init calls = Ok s
    /\ Satchel.invariant s
    /\ Satchel.calculate_points s false = Zsum (coin_values calls)
    /\ Satchel.calculate_points s true
       = (Zsum (coin_values calls)
          + Zsum (map BonusCoin.value (bonus_coins_added calls)))%Z
    /\ forall bonus_type,
        Satchel.get_bonus_coin_count s bonus_type
        = Ok (List.length
                (filter (fun b => BonusTypes.eqb
                                    (BonusCoin.bonus_type b) bonus_type)
                        (bonus_coins_added calls))).
Proof.
  destruct (satchel_run_from calls Satchel.init Satchel_init_invariant)
    as (s & Hr & Hi & Hf & Ht & Hc).
  exists s. split; [exact Hr|]. split; [exact Hi|].
  split; [exact Hf|]. split; [exact Ht|].
  intros bt. destruct (Hc bt) as (n & Hn & Hn'). rewrite Hn'.
  destruct bt; simpl in Hn; injection Hn as <-; reflexivity.
Qed.

(** ** [RuleTrader] *)

(** The head of a list sorted with [reverse=True]: the first item among
    those with the greatest key. *)
Lemma fold_insort_rev_head {A : Type} (key : A -> Z) (l : list A) :
  forall b t,
  exists m t' l1 l2,
    fold_left (fun acc x => insort_rev key x acc) l (b :: t) = m :: t'
    /\ b :: l = l1 ++ m :: l2
    /\ Forall (fun y => key y < key m)%Z l1
    /\ Forall (fun y => key y <= key m)%Z l2.
Proof.
  induction l as [|y l IH]; intros b t.
  - exists b, t, [], []. simpl. auto.
  - simpl. destruct (key b <? key y)%Z eqn:E.
    + apply Z.ltb_lt in E.
      destruct (IH y (b :: t)) as (m & t' & l1 & l2 & Hf & Hs & H1 & H2).
      exists m, t', (b :: l1), l2. split; [exact Hf|].
      split; [simpl; now rewrite <- Hs|]. split; [|exact H2].
      constructor; [|exact H1].
      destruct l1 as [|z l1]; simpl in Hs; injection Hs as <- _.
      * exact E.
      * inversion H1; subst. lia.
    + apply Z.ltb_ge in E.
      destruct (IH b (insort_rev key y t)) as (m & t' & l1 & l2 & Hf & Hs & H1 & H2).
      destruct l1 as [|z l1]; simpl in Hs; injection Hs as <- Hl.
      * exists b, t', [], (y :: l2). split; [exact Hf|].
        subst l. split; [reflexivity|]. split; [constructor|].
        constructor; [exact E | exact H2].
      * exists m, t', (b :: y :: l1), l2. split; [exact Hf|].
        subst l. split; [reflexivity|]. split; [|exact H2].
        inversion H1; subst. constructor; [assumption|].
        constructor; [lia | assumption].
Qed.

Lemma sort_rev_head {A : Type} (key : A -> Z) (x : A) (l : list A) :
  exists m t l1 l2,
    sort_rev key (x :: l) = m :: t
    /\ x :: l = l1 ++ m :: l2
    /\ Forall (fun y => key y < key m)%Z l1
    /\ Forall (fun y => key y <= key m)%Z l2.
Proof. apply (fold_insort_rev_head key l x []). Qed.

(** A loop that appends [f a] for the items passing a test builds the
    image of the filtered list. *)
Lemma collect_loop {A B : Type} (p : A -> bool) (f : A -> B)
      (l : list A) (acc : list B) :
  fold_left (fun acc a => if p a then acc ++ [f a] else acc) l acc
  = acc ++ map f (filter p l).
Proof.
  revert acc. induction l as [|a l IH]; intros acc; simpl.
  - now rewrite app_nil_r.
  - rewrite IH. destruct (p a); simpl; [|reflexivity].
    now rewrite <- app_assoc.
Qed.

Lemma map_filter_split {A B : Type} (p : A -> bool) (f : A -> B)
      (l : list A) :
  forall l1 m l2,
    map f (filter p l) = l1 ++ m :: l2 ->
    exists l1' a l2',
      l = l1' ++ a :: l2' /\ p a = true /\ f a = m
      /\ map f (filter p l1') = l1 /\ map f (filter p l2') = l2.
Proof.
  induction l as [|a l IH]; intros l1 m l2 H; simpl in H.
  - destruct l1; discriminate.
  - destruct (p a) eqn:E.
    + destruct l1 as [|x l1]; simpl in H; injection H as Hx Hl.
      * exists [], a, l. auto.
      * destruct (IH _ _ _ Hl) as (l1' & a' & l2' & -> & Hp & Hf & H1 & H2).
        exists (a :: l1'), a', l2'. simpl. rewrite E. simpl.
        repeat split; auto. now rewrite Hx, H1.
    + destruct (IH _ _ _ H) as (l1' & a' & l2' & -> & Hp & Hf & H1 & H2).
      exists (a :: l1'), a', l2'. simpl. rewrite E. auto.
Qed.

Lemma filter_nil_iff {A : Type} (p : A -> bool) (l : list A) :
  filter p l = [] <-> forall a, In a l -> p a = false.
Proof.
  induction l as [|a l IH]; simpl.
  - split; [intros _ ? [] | reflexivity].
  - destruct (p a) eqn:E.
    + split; [discriminate|]. intros H. specialize (H a (or_introl eq_refl)).
      congruence.
    + rewrite IH. split.
      * intros H b [<-|Hb]; auto.
      * intros H b Hb. apply H. now right.
Qed.

Lemma find_split {A : Type} (p : A -> bool) (l : list A) (a : A) :
  find p l = Some a ->
  exists l1 l2,
    l = l1 ++ a :: l2 /\ p a = true /\ forall b, In b l1 -> p b = false.
Proof.
  induction l as [|x l IH]; simpl; [discriminate|].
  destruct (p x) eqn:E.
  - intros [= <-]. exists [], l. split; [reflexivity|].
    split; [exact E | intros ? []].
  - intros H. destruct (IH H) as (l1 & l2 & -> & Hp & Hb).
    exists (x :: l1), l2. split; [reflexivity|]. split; [exact Hp|].
    intros b [<-|Hin]; auto.
Qed.

Section RuleTraderFacts.

Variable Action : Type.
Variable type : Action -> string.
Variable good_type : Action -> GoodTypes.t.
Variable count : Action -> Z.
Variable Random : Type.
Variable randbelow : Random -> nat -> nat * Random.
Variable ActorGoods : Type.

Local Abbreviation Observation := (RuleTrader.Observation ActorGoods).
Local Abbreviation select_action :=
  (RuleTrader.select_action type good_type count randbelow
                            (ActorGoods := ActorGoods)).
Local Abbreviation sell_score :=
  (RuleTrader.sell_score good_type count (ActorGoods := ActorGoods)).
Local Abbreviation top obs a := (RuleTrader.top_coin obs (good_type a)).
Local Abbreviation is_sell := (fun a : Action => String.eqb (type a) "SELL").
Local Abbreviation is_pass := (fun a : Action => String.eqb (type a) "PASS").
Local Abbreviation is_buy obs :=
  (fun a : Action => String.eqb (type a) "BUY" && (4 <=? top obs a)%Z).

Lemma sell_actions_eq (obs : Observation) (actions : list Action) :
  RuleTrader.sell_actions type good_type count obs actions
  = map (fun a => (sell_score obs a, a)) (filter is_sell actions).
Proof.
  unfold RuleTrader.sell_actions.
  now rewrite (collect_loop is_sell (fun a => (sell_score obs a, a))).
Qed.

Lemma buy_actions_eq (obs : Observation) (actions : list Action) :
  RuleTrader.buy_actions type good_type obs actions
  = map (fun a => (top obs a, a)) (filter (is_buy obs) actions).
Proof.
  unfold RuleTrader.buy_actions.
  enough (H : forall acc,
             fold_left
               (fun buy_actions act =>
                  if String.eqb (type act) "BUY" then
                    let good := good_type act in
                    let value := RuleTrader.top_coin obs good in
                    if (4 <=? value)%Z then buy_actions ++ [(value, act)]
                    else buy_actions
                  else buy_actions)
               actions acc
             = acc ++ map (fun a => (top obs a, a))
                          (filter (is_buy obs) actions))
    by apply (H []).
  induction actions as [|a l IH]; intros acc; simpl.
  - now rewrite app_nil_r.
  - rewrite IH. cbv zeta.
    destruct (String.eqb (type a) "BUY"); simpl; [|reflexivity].
    destruct (4 <=? RuleTrader.top_coin obs (good_type a))%Z; simpl;
      [|reflexivity].
    now rewrite <- app_assoc.
Qed.

(** [best] of the scored items that pass a test: the first action with the
    greatest score among those that pass. *)
Lemma best_scored (p : Action -> bool) (f : Action -> Z)
      (actions : list Action) :
  filter p actions <> [] ->
  exists l1 a l2,
    actions = l1 ++ a :: l2 /\ p a = true
    /\ RuleTrader.best (map (fun a => (f a, a)) (filter p actions)) = Ok a
    /\ (forall b, In b l1 -> p b = true -> (f b < f a)%Z)
    /\ (forall b, In b l2 -> p b = true -> (f b <= f a)%Z).
Proof.
  intros Hne. unfold RuleTrader.best.
  destruct (map (fun a => (f a, a)) (filter p actions)) as [|x l] eqn:E.
  { destruct (filter p actions); [contradiction | discriminate]. }
  destruct (sort_rev_head fst x l) as (m & t & s1 & s2 & -> & Hs & H1 & H2).
  rewrite Hs in E.
  destruct (map_filter_split p _ actions _ _ _ E)
    as (l1 & a & l2 & -> & Hp & <- & E1 & E2).
  exists l1, a, l2. simpl in *. repeat split; auto.
  - intros b Hb Hpb. rewrite Forall_forall in H1.
    apply (H1 (f b, b)). rewrite <- E1.
    apply (in_map (fun a => (f a, a))), filter_In. auto.
  - intros b Hb Hpb. rewrite Forall_forall in H2.
    apply (H2 (f b, b)). rewrite <- E2.
    apply (in_map (fun a => (f a, a))), filter_In. auto.
Qed.

Lemma is_sell_true (a : Action) : is_sell a = true <-> type a = "SELL".
Proof. apply String.eqb_eq. Qed.

(** Without a SELL action the first two steps of the method do nothing. *)
Lemma select_action_no_sell (r : Random) (actions : list Action)
      (obs : Observation) :
  filter is_sell actions = [] ->
  select_action r actions obs
  = if negb (match filter (is_buy obs) actions with
             | [] => true
             | _ :: _ => false
             end)
       && (RuleTrader.actor_non_camel_goods_count obs
           <? RuleTrader.max_player_goods_count obs)%Z
    then a <- RuleTrader.best
                (map (fun a => (top obs a, a)) (filter (is_buy obs) actions)) ;;
         Ok (a, r)
    else match find is_pass actions with
         | Some act => Ok (act, r)
         | None => Trader.choice randbelow r actions
         end.
Proof.
  intros H. unfold RuleTrader.select_action. cbv zeta.
  rewrite sell_actions_eq, buy_actions_eq, H. simpl.
  destruct (RuleTrader.max_player_goods_count obs - 1
            <=? RuleTrader.actor_non_camel_goods_count obs)%Z;
    destruct (filter (is_buy obs) actions); reflexivity.
Qed.

(** X13.  When the list holds a SELL action, [select_action] returns a SELL
    action of the list with the greatest [sell_score], the first such in
    the list, and draws no random number. *)
Theorem RuleTrader_sells_best (r : Random) (actions : list Action)
        (obs : Observation) :
  (exists b, In b actions /\ type b = "SELL") ->
  exists l1 a l2,
    actions = l1 ++ a :: l2
    /\ select_action r actions obs = Ok (a, r)
    /\ type a = "SELL"
    /\ (forall b, In b l1 -> type b = "SELL" ->
                  (sell_score obs b < sell_score obs a)%Z)
    /\ (forall b, In b l2 -> type b = "SELL" ->
                  (sell_score obs b <= sell_score obs a)%Z).
Proof.
  intros (b0 & Hin0 & Hb0).
  assert (Hne : filter is_sell actions <> []).
  { intros E. rewrite filter_nil_iff in E. specialize (E b0 Hin0).
    apply is_sell_true in Hb0. simpl in E. congruence. }
  destruct (best_scored is_sell (sell_score obs) actions Hne)
    as (l1 & a & l2 & E & Hp & Hbest & H1 & H2).
  exists l1, a, l2. split; [exact E|]. split; [|split; [|split]].
  - unfold RuleTrader.select_action. cbv zeta. rewrite sell_actions_eq.
    destruct (map (fun a => (sell_score obs a, a)) (filter is_sell actions))
      as [|x l] eqn:Em.
    + destruct (filter is_sell actions); [contradiction | discriminate].
    + now rewrite Hbest.
  - now apply is_sell_true.
  - intros b Hb Ht. apply H1; [exact Hb | now apply is_sell_true].
  - intros b Hb Ht. apply H2; [exact Hb | now apply is_sell_true].
Qed.

Lemma no_sell_filter (actions : list Action) :
  (forall b, In b actions -> type b <> "SELL") -> filter is_sell actions = [].
Proof.
  intros H. apply filter_nil_iff. intros a Ha. simpl.
  apply String.eqb_neq. now apply H.
Qed.

(** X14.  Without a SELL action, with room in the hand
    ([actor_non_camel_goods_count < max_player_goods_count]) and a BUY
    action of a good whose top coin is at least 4, [select_action] returns
    a BUY action of the list with the greatest top coin, the first such in
    the list, and draws no random number. *)
Theorem RuleTrader_buys_best (r : Random) (actions : list Action)
        (obs : Observation) :
  (forall b, In b actions -> type b <> "SELL") ->
  (RuleTrader.actor_non_camel_goods_count obs
   < RuleTrader.max_player_goods_count obs)%Z ->
  (exists b, In b actions /\ type b = "BUY" /\ (4 <= top obs b)%Z) ->
  exists l1 a l2,
    actions = l1 ++ a :: l2
    /\ select_action r actions obs = Ok (a, r)
    /\ type a = "BUY" /\ (4 <= top obs a)%Z
    /\ (forall b, In b l1 -> type b = "BUY" -> (top obs b < top obs a)%Z)
    /\ (forall b, In b l2 -> type b = "BUY" -> (top obs b <= top obs a)%Z).
Proof.
  intros Hns Hroom (b0 & Hin0 & Hb0 & Hv0).
  assert (Hne : filter (is_buy obs) actions <> []).
  { intros E. rewrite filter_nil_iff in E. specialize (E b0 Hin0).
    simpl in E. apply String.eqb_eq in Hb0. apply Z.leb_le in Hv0.
    rewrite Hb0, Hv0 in E. discriminate. }
  destruct (best_scored (is_buy obs) (fun a => top obs a) actions Hne)
    as (l1 & a & l2 & E & Hp & Hbest & H1 & H2).
  simpl in Hp. apply andb_prop in Hp. destruct Hp as [Hpt Hpv].
  apply String.eqb_eq in Hpt. apply Z.leb_le in Hpv.
  exists l1, a, l2. split; [exact E|].
  split; [|split; [exact Hpt | split; [exact Hpv | split]]].
  - rewrite (select_action_no_sell r actions obs (no_sell_filter _ Hns)).
    apply Z.ltb_lt in Hroom. rewrite Hroom.
    assert (Hnil : negb (match filter (is_buy obs) actions with
                         | [] => true
                         | _ :: _ => false
                         end) = true)
      by (destruct (filter (is_buy obs) actions); [contradiction|reflexivity]).
    rewrite Hnil. simpl andb. cbv iota. rewrite Hbest. reflexivity.
  - intros b Hb Ht.
    destruct (Z.le_gt_cases 4 (top obs b)) as [Hv|Hv]; [|lia].
    apply H1; [exact Hb|]. simpl. apply String.eqb_eq in Ht.
    apply Z.leb_le in Hv. now rewrite Ht, Hv.
  - intros b Hb Ht.
    destruct (Z.le_gt_cases 4 (top obs b)) as [Hv|Hv]; [|lia].
    apply H2; [exact Hb|]. simpl. apply String.eqb_eq in Ht.
    apply Z.leb_le in Hv. now rewrite Ht, Hv.
Qed.

(** X15.  Without a SELL action, and with a full hand or no BUY action of a
    good whose top coin is at least 4, [select_action] returns the first
    PASS action of the list when there is one, and draws no random
    number. *)
Theorem RuleTrader_passes (r : Random) (actions : list Action)
        (obs : Observation) :
  (forall b, In b actions -> type b <> "SELL") ->
  (RuleTrader.max_player_goods_count obs
   <= RuleTrader.actor_non_camel_goods_count obs)%Z
  \/ (forall b, In b actions -> type b = "BUY" -> (top obs b < 4)%Z) ->
  (exists b, In b actions /\ type b = "PASS") ->
  exists l1 a l2,
    actions = l1 ++ a :: l2
    /\ select_action r actions obs = Ok (a, r)
    /\ type a = "PASS"
    /\ (forall b, In b l1 -> type b <> "PASS").
Proof.
  intros Hns Hnb (b0 & Hin0 & Hb0).
  rewrite (select_action_no_sell r actions obs (no_sell_filter _ Hns)).
  assert (Hc : negb (match filter (is_buy obs) actions with
                     | [] => true
                     | _ :: _ => false
                     end)
               && (RuleTrader.actor_non_camel_goods_count obs
                   <? RuleTrader.max_player_goods_count obs)%Z = false).
  { destruct Hnb as [Hfull|Hlow].
    - apply andb_false_iff. right. now apply Z.ltb_ge.
    - assert (E : filter (is_buy obs) actions = []).
      { apply filter_nil_iff. intros a Ha. simpl.
        destruct (String.eqb (type a) "BUY") eqn:Et; [|reflexivity].
        apply String.eqb_eq in Et. specialize (Hlow a Ha Et).
        simpl. apply Z.leb_gt. exact Hlow. }
      now rewrite E. }
  rewrite Hc.
  destruct (find is_pass actions) as [a|] eqn:Ef.
  - destruct (find_split _ _ _ Ef) as (l1 & l2 & E & Hp & Hb).
    exists l1, a, l2. split; [exact E|]. split; [reflexivity|].
    split; [now apply String.eqb_eq|].
    intros b Hin. apply String.eqb_neq. now apply Hb.
  - exfalso. apply (find_none _ _ Ef) in Hin0. simpl in Hin0.
    apply String.eqb_eq in Hb0. congruence.
Qed.

(** X16.  [select_action] raises [IndexError] on an empty list of actions,
    and on any other list returns one of its actions (given that the
    library's [_randbelow(n)] answers below [n]). *)
Theorem RuleTrader_select_action_legal (r : Random) (actions : list Action)
        (obs : Observation) :
  (forall r n, 0 < n -> fst (randbelow r n) < n) ->
  (actions = [] -> select_action r actions obs = Raise IndexError)
  /\ (actions <> [] ->
      exists a r', select_action r actions obs = Ok (a, r') /\ In a actions).
Proof.
  intros Hlt. split.
  { intros ->. now rewrite (select_action_no_sell r [] obs eq_refl). }
  intros Hne.
  destruct (filter is_sell actions) as [|s0 ss] eqn:Es.
  - rewrite (select_action_no_sell r actions obs Es).
    destruct (negb _ && _) eqn:Hc.
    + apply andb_prop in Hc. destruct Hc as [Hb _].
      assert (Hnb : filter (is_buy obs) actions <> [])
        by (destruct (filter (is_buy obs) actions); [discriminate | congruence]).
      destruct (best_scored (is_buy obs) (fun a => top obs a) actions Hnb)
        as (l1 & a & l2 & E & _ & Hbest & _).
      exists a, r. rewrite Hbest. split; [reflexivity|].
      rewrite E. apply in_elt.
    + destruct (find is_pass actions) as [a|] eqn:Ef.
      * exists a, r. split; [reflexivity|]. now apply find_some in Ef.
      * apply choice_In; assumption.
  - assert (Hs : filter is_sell actions <> []) by (rewrite Es; discriminate).
    destruct (best_scored is_sell (sell_score obs) actions Hs)
      as (l1 & a & l2 & E & _ & Hbest & _).
    exists a, r. split; [|rewrite E; apply in_elt].
    unfold RuleTrader.select_action. cbv zeta. rewrite sell_actions_eq.
    destruct (map (fun a => (sell_score obs a, a)) (filter is_sell actions))
      as [|x l] eqn:Em.
    + rewrite Es in Em. discriminate.
    + now rewrite Hbest.
Qed.

End RuleTraderFacts.

(** ** The further theorems at the sample instances *)

(** X5 at the sample hand: removing a SPICE. *)
Lemma Hand_remove_takes_first_sample :
  exists l1 item l2,
    Hand.goods Sample.hand = l1 ++ item :: l2
    /\ [Sample.camel; Sample.GOLD; Sample.SPICE] = l1 ++ l2
    /\ Sample.good_eqb item Sample.SPICE = true
    /\ Forall (fun g => Sample.good_eqb g Sample.SPICE = false) l1
    /\ Hand.count_goods Sample.good_type Sample.hand true = 4.
Proof.
  apply (Hand_remove_takes_first Sample.Good Sample.good_type Sample.good_eqb
           Sample.hand
           (Hand.Build [Sample.camel; Sample.GOLD; Sample.SPICE])
           Sample.SPICE).
  - apply Hand_init_invariant.
  - reflexivity.
Defined.

(** X9 at the sample hand: removing a SPICE and appending it again. *)
Lemma Hand_remove_append_round_trip_sample :
  Hand.canonical Sample.good_type
    (Hand.append Sample.good_type
       (Hand.Build [Sample.camel; Sample.GOLD; Sample.SPICE]) Sample.SPICE)
  = Hand.canonical Sample.good_type Sample.hand.
Proof.
  apply (Hand_remove_append_round_trip Sample.Good Sample.good_type
           Sample.good_eqb Sample.hand
           (Hand.Build [Sample.camel; Sample.GOLD; Sample.SPICE])
           Sample.SPICE Sample_good_eqb_type).
  - apply Hand_init_invariant.
  - reflexivity.
Defined.

(** X11 at the sample satchel and a bonus coin of type FIVE worth 9. *)
Lemma Satchel_add_bonus_coin_points_sample :
  exists s',
    Satchel.add_bonus_coin Sample.satchel (BonusCoin.Build 9 BonusTypes.FIVE)
    = Ok s'
    /\ Satchel.invariant s'
    /\ Satchel.calculate_points s' true
       = (Satchel.calculate_points Sample.satchel true + 9)%Z.
Proof.
  apply (Satchel_add_bonus_coin_points Sample.satchel
           (BonusCoin.Build 9 BonusTypes.FIVE)).
  reflexivity.
Defined.

(** X13 at a list with two SELL actions of score 12: the first is chosen. *)
Lemma RuleTrader_sells_best_sample :
  exists l1 a l2,
    [RuleSample.buy_gold; RuleSample.sell_gold_2; RuleSample.pass;
     RuleSample.sell_spice_3] = l1 ++ a :: l2
    /\ RuleTrader.select_action RuleSample.type RuleSample.good_type
         RuleSample.count Sample.randbelow 0
         [RuleSample.buy_gold; RuleSample.sell_gold_2; RuleSample.pass;
          RuleSample.sell_spice_3] RuleSample.observation
       = Ok (a, 0)
    /\ RuleSample.type a = "SELL"
    /\ (forall b, In b l1 -> RuleSample.type b = "SELL" ->
          (RuleTrader.sell_score RuleSample.good_type RuleSample.count
             RuleSample.observation b
           < RuleTrader.sell_score RuleSample.good_type RuleSample.count
               RuleSample.observation a)%Z)
    /\ (forall b, In b l2 -> RuleSample.type b = "SELL" ->
          (RuleTrader.sell_score RuleSample.good_type RuleSample.count
             RuleSample.observation b
           <= RuleTrader.sell_score RuleSample.good_type RuleSample.count
                RuleSample.observation a)%Z).
Proof.
  apply (RuleTrader_sells_best RuleSample.Action RuleSample.type
           RuleSample.good_type RuleSample.count nat Sample.randbelow unit).
  exists RuleSample.sell_gold_2. simpl. auto.
Defined.

(** X14 at a list without SELL and two BUY actions, with room in the
    hand. *)
Lemma RuleTrader_buys_best_sample :
  exists l1 a l2,
    [RuleSample.take_gold; RuleSample.buy_spice; RuleSample.buy_gold;
     RuleSample.pass] = l1 ++ a :: l2
    /\ RuleTrader.select_action RuleSample.type RuleSample.good_type
         RuleSample.count Sample.randbelow 0
         [RuleSample.take_gold; RuleSample.buy_spice; RuleSample.buy_gold;
          RuleSample.pass] RuleSample.observation
       = Ok (a, 0)
    /\ RuleSample.type a = "BUY"
    /\ (4 <= RuleTrader.top_coin RuleSample.observation
               (RuleSample.good_type a))%Z
    /\ (forall b, In b l1 -> RuleSample.type b = "BUY" ->
          (RuleTrader.top_coin RuleSample.observation (RuleSample.good_type b)
           < RuleTrader.top_coin RuleSample.observation
               (RuleSample.good_type a))%Z)
    /\ (forall b, In b l2 -> RuleSample.type b = "BUY" ->
          (RuleTrader.top_coin RuleSample.observation (RuleSample.good_type b)
           <= RuleTrader.top_coin RuleSample.observation
                (RuleSample.good_type a))%Z).
Proof.
  apply (RuleTrader_buys_best RuleSample.Action RuleSample.type
           RuleSample.good_type RuleSample.count nat Sample.randbelow unit).
  - intros b [<-|[<-|[<-|[<-|[]]]]]; discriminate.
  - simpl. lia.
  - exists RuleSample.buy_gold. simpl. repeat split; auto. discriminate.
Defined.

(** X15 at a list whose only BUY action is of a good with top coin 3. *)
Lemma RuleTrader_passes_sample :
  exists l1 a l2,
    [RuleSample.take_gold; RuleSample.buy_spice; RuleSample.pass]
    = l1 ++ a :: l2
    /\ RuleTrader.select_action RuleSample.type RuleSample.good_type
         RuleSample.count Sample.randbelow 0
         [RuleSample.take_gold; RuleSample.buy_spice; RuleSample.pass]
         RuleSample.observation
       = Ok (a, 0)
    /\ RuleSample.type a = "PASS"
    /\ (forall b, In b l1 -> RuleSample.type b <> "PASS").
Proof.
  apply (RuleTrader_passes RuleSample.Action RuleSample.type
           RuleSample.good_type RuleSample.count nat Sample.randbelow unit).
  - intros b [<-|[<-|[<-|[]]]]; discriminate.
  - right. intros b [<-|[<-|[<-|[]]]]; simpl; intros H;
      try discriminate; reflexivity.
  - exists RuleSample.pass. simpl. auto.
Defined.

(** X16 at a list with one action that is neither SELL, BUY nor PASS. *)
Lemma RuleTrader_select_action_legal_sample :
  ([RuleSample.take_gold] = [] ->
   RuleTrader.select_action RuleSample.type RuleSample.good_type
     RuleSample.count Sample.randbelow 0 [RuleSample.take_gold]
     RuleSample.observation
   = Raise IndexError)
  /\ ([RuleSample.take_gold] <> [] ->
      exists a r',
        RuleTrader.select_action RuleSample.type RuleSample.good_type
          RuleSample.count Sample.randbelow 0 [RuleSample.take_gold]
          RuleSample.observation
        = Ok (a, r')
        /\ In a [RuleSample.take_gold]).
Proof.
  apply (RuleTrader_select_action_legal RuleSample.Action RuleSample.type
           RuleSample.good_type RuleSample.count nat Sample.randbelow unit
           0 [RuleSample.take_gold] RuleSample.observation
           Sample_randbelow_lt).
Defined.
